(** * octo-goggles: the two ChatGPT relays

    A shallow embedding of [api/index.py] (the HTTP surface) and of
    [server.py] (the stdio tool surface), and the properties of their
    routing, prompt construction and fault translation.

    Python values are embedded as the type [pyval]; dictionaries are
    finite maps with string keys.  The code runs in a small monad [Py]
    whose state records what leaves the process: the calls made to the
    completion provider and what the HTTP handler puts on the wire (a JSON
    body is recorded as the value that [json.dumps] serialises).
    A computation either returns a value or raises an exception, and
    [try_except] is Python's [try: ... except Exception as e: ...]. *)

From stdpp Require Import gmap strings list fin_maps.
From Stdlib Require Import ZArith.

Set Warnings "-register-all".
Set Default Proof Using "Type".

Local Open Scope Z_scope.

(** ** Python values *)

(** What [json.loads] can produce and what the handlers build.  A float is
    kept as the number literal it was decoded from: the handlers only ever
    format it or pass it on. *)
Inductive pyval : Type :=
| PNone
| PBool (b : bool)
| PInt (z : Z)
| PFloat (literal : string)
| PStr (s : string)
| PList (l : list pyval)
| PDict (d : gmap string pyval).

(** An exception object, of a class derived from [Exception] (the faults
    of the provider's client and of the interpreter that the [except
    Exception] clauses of the code catch): its class and what [str(e)]
    gives. *)
Record exn : Type := Exn { exn_class : string; exn_str : string }.

Definition str_exn (e : exn) : string := exn_str e.

(** [type(v).__name__], as it appears in the interpreter's messages. *)
Definition type_name (v : pyval) : string :=
  match v with
  | PNone => "NoneType"
  | PBool _ => "bool"
  | PInt _ => "int"
  | PFloat _ => "float"
  | PStr _ => "str"
  | PList _ => "list"
  | PDict _ => "dict"
  end.

Definition AttributeError (v : pyval) (attr : string) : exn :=
  Exn "AttributeError"
      ("'" +:+ type_name v +:+ "' object has no attribute '" +:+ attr +:+ "'").

(** Raised when a list or a dict is used as a dictionary key (the message
    is CPython's, up to version 3.13). *)
Definition TypeError_unhashable (v : pyval) : exn :=
  Exn "TypeError" ("unhashable type: '" +:+ type_name v +:+ "'").

Definition IndexError : exn := Exn "IndexError" "list index out of range".

(** Lists and dicts cannot be hashed, every other decoded value can. *)
Definition hashable (v : pyval) : bool :=
  match v with
  | PList _ | PDict _ => false
  | _ => true
  end.

(** [v == s] for a string literal [s]: only the same string is equal to it. *)
Definition py_eq_str (v : pyval) (s : string) : bool :=
  match v with
  | PStr t => bool_decide (t = s)
  | _ => false
  end.

(** ** The completion provider's interface *)

Record message : Type := Message { role : string; content : pyval }.

(** The keyword arguments of [client.chat.completions.create]. *)
Record completion_request : Type := CompletionRequest {
  model : pyval;
  messages : list message;
  max_tokens : Z
}.

Record Usage : Type := MkUsage {
  prompt_tokens : Z;
  completion_tokens : Z;
  total_tokens : Z
}.

(** What the provider answers: [choices] holds [message.content] of each
    choice, in order. *)
Record ChatCompletion : Type := MkChatCompletion {
  choices : list string;
  usage : Usage
}.

(** [mcp.types.TextContent]. *)
Record TextContent : Type := MkTextContent { type : string; text : string }.

(** ** Computations *)

Inductive result (A : Type) : Type :=
| Ok (a : A)
| Fault (e : exn).
Arguments Ok {A} a.
Arguments Fault {A} e.

(** The text [json.dumps(v)] produces, kept as the value it serialises. *)
Record json_text : Type := json_dumps { serialised : pyval }.

Inductive wire_event : Type :=
| Status (code : Z)
| Header (keyword value : string)
| EndHeaders
| Body (payload : json_text).

(** The observable history: provider calls and HTTP output, oldest first. *)
Record world : Type := World {
  calls : list completion_request;
  wire : list wire_event
}.

Definition Py (A : Type) : Type := world → result A * world.

#[export] Instance Py_ret : MRet Py := λ A a w, (Ok a, w).

#[export] Instance Py_bind : MBind Py := λ A B f m w,
  match m w with
  | (Ok a, w') => f a w'
  | (Fault e, w') => (Fault e, w')
  end.

(** A pure step that may fail. *)
Definition lift {A : Type} (r : result A) : Py A := λ w, (r, w).

(** [try: body  except Exception as e: handler e].  What [body] did before
    it raised stays done. *)
Definition try_except {A : Type} (body : Py A) (handler : exn → Py A) : Py A :=
  λ w, match body w with
       | (Ok a, w') => (Ok a, w')
       | (Fault e, w') => handler e w'
       end.

Definition emit (ev : wire_event) : Py unit :=
  λ w, (Ok tt, World (calls w) (wire w ++ [ev])).

Definition send_response (code : Z) : Py unit := emit (Status code).
Definition send_header (keyword value : string) : Py unit :=
  emit (Header keyword value).
Definition end_headers : Py unit := emit EndHeaders.
Definition wfile_write (payload : json_text) : Py unit := emit (Body payload).

(** ** Indexing and dictionary access *)

(** [l[0]] *)
Definition index0 {A : Type} (l : list A) : result A :=
  match l with
  | x :: _ => Ok x
  | [] => Fault IndexError
  end.

(** [d.get(key, default)] with a literal key. *)
Definition dict_get (d : gmap string pyval) (key : string) (dflt : pyval) : pyval :=
  default dflt (d !! key).

(** The bound method [v.get] of a decoded value: only a dict has one. *)
Definition getattr_get (v : pyval) : result (gmap string pyval) :=
  match v with
  | PDict d => Ok d
  | _ => Fault (AttributeError v "get")
  end.

(** The line feed of the f-strings' [\n], and the double quote. *)
Definition LF : string := String (Ascii.ascii_of_N 10) EmptyString.
Definition DQ : string := String (Ascii.ascii_of_N 34) EmptyString.

(** ** The specification's template table

    The table of section 4.3 of the specification, as written there:
    analysis kind and instruction.  It is what the prompts built by the
    code are compared with. *)
Definition spec_instruction (analysis_type : string) : option string :=
  if bool_decide (analysis_type = "sentiment") then
    Some "Analyze the sentiment of this text and provide a detailed assessment:"
  else if bool_decide (analysis_type = "themes") then
    Some "Identify and explain the main themes in this text:"
  else if bool_decide (analysis_type = "summary") then
    Some "Provide a concise summary of this text:"
  else if bool_decide (analysis_type = "key_points") then
    Some "Extract the key points from this text as a bulleted list:"
  else None.

(** The four kinds the table defines. *)
Definition defined_type (analysis_type : string) : Prop :=
  analysis_type = "sentiment" ∨ analysis_type = "themes" ∨
  analysis_type = "summary" ∨ analysis_type = "key_points".

(** ** Stand-ins for the collaborators, for the concrete runs *)
Module Stub.

(** [repr] on the values the concrete runs print: [None], booleans,
    strings of plain characters, the empty list and the empty dict (the
    text every other value is given here is never printed in them). *)
Definition repr (v : pyval) : string :=
  match v with
  | PNone => "None"
  | PBool true => "True"
  | PBool false => "False"
  | PStr s => "'" +:+ s +:+ "'"
  | PList [] => "[]"
  | _ => "{}"
  end.

Definition quoted (s : string) : string := DQ +:+ s +:+ DQ.

(** The body [{"action": a}]. *)
Definition action_body (a : string) : string :=
  "{" +:+ quoted "action" +:+ ": " +:+ quoted a +:+ "}".

Definition JSONDecodeError : exn :=
  Exn "JSONDecodeError" "Expecting value: line 1 column 1 (char 0)".

(** [json.loads] on the bodies the concrete runs post. *)
Definition loads (post_data : string) : result pyval :=
  if bool_decide (post_data = "[]") then Ok (PList [])
  else if bool_decide (post_data = "{}") then Ok (PDict ∅)
  else if bool_decide (post_data = action_body "foo") then
    Ok (PDict {[ "action" := PStr "foo" ]})
  else if bool_decide (post_data = action_body "chat") then
    Ok (PDict {[ "action" := PStr "chat" ]})
  else if bool_decide (post_data = action_body "analyze") then
    Ok (PDict {[ "action" := PStr "analyze" ]})
  else if bool_decide (post_data = action_body "list_tools") then
    Ok (PDict {[ "action" := PStr "list_tools" ]})
  else Fault JSONDecodeError.

Definition completion : ChatCompletion :=
  {| choices := ["Hello."]; usage := MkUsage 12 3 15 |}.

(** A provider that answers every call with the same completion. *)
Definition answering (req : completion_request) : result ChatCompletion :=
  Ok completion.

Definition connection_error : exn := Exn "APIConnectionError" "Connection error.".

(** A provider that raises on every call. *)
Definition failing (req : completion_request) : result ChatCompletion :=
  Fault connection_error.

(** A provider that answers with no choice at all. *)
Definition no_choices (req : completion_request) : result ChatCompletion :=
  Ok {| choices := []; usage := MkUsage 12 0 12 |}.

Definition ValueError (s : string) : exn :=
  Exn "ValueError" ("invalid literal for int() with base 10: '" +:+ s +:+ "'").

(** [int] on the header values the concrete runs send. *)
Definition int_str (s : string) : result Z :=
  if bool_decide (s = "2") then Ok 2
  else if bool_decide (s = "17") then Ok 17
  else Fault (ValueError s).

Definition w0 : world := World [] [].

End Stub.

Section Relay.

(** The collaborators that are not code of this repository: Python's
    [repr], [json.loads], and the provider behind the OpenAI client. *)
Variable py_repr : pyval → string.
Variable json_loads : string → result pyval.
Variable create : completion_request → result ChatCompletion.

(** Python's [int] on a string, for the [Content-Length] header. *)
Variable int_str : string → result Z.

(** [str(v)], and [{v}] in an f-string: a string is itself, every other
    decoded value is printed by [repr]. *)
Definition py_str (v : pyval) : string :=
  match v with
  | PStr s => s
  | _ => py_repr v
  end.

(** [str(KeyError(k))] is [repr(k)]. *)
Definition KeyError (k : pyval) : exn := Exn "KeyError" (py_repr k).

(** [d[k]] on a dict with string keys. *)
Definition subscript (d : gmap string string) (k : pyval) : result string :=
  match k with
  | PStr s =>
      match d !! s with
      | Some v => Ok v
      | None => Fault (KeyError k)
      end
  | PList _ | PDict _ => Fault (TypeError_unhashable k)
  | _ => Fault (KeyError k)
  end.

(** [d.get(k, dflt)] on a dict with string keys, for any key value. *)
Definition get_or (d : gmap string string) (k : pyval) (dflt : string) : result string :=
  match k with
  | PStr s => Ok (default dflt (d !! s))
  | PList _ | PDict _ => Fault (TypeError_unhashable k)
  | _ => Ok dflt
  end.

(** [client.chat.completions.create(...)]: the call is recorded, then the
    provider answers or raises. *)
Definition completions_create (req : completion_request) : Py ChatCompletion :=
  λ w, (create req, World (calls w ++ [req]) (wire w)).

(** The [usage] entry of a success response. *)
Definition usage_dict (u : Usage) : pyval :=
  PDict {[ "prompt_tokens" := PInt (prompt_tokens u);
           "completion_tokens" := PInt (completion_tokens u);
           "total_tokens" := PInt (total_tokens u) ]}.

(** The failure variant built by the [except] clauses of the HTTP handlers. *)
Definition failure (e : exn) : pyval :=
  PDict {[ "success" := PBool false; "error" := PStr (str_exn e) ]}.

(** The [prompts] dict, identical in both files. *)
Definition prompts (text : pyval) : gmap string string :=
  {[ "sentiment" :=
       "Analyze the sentiment of this text and provide a detailed assessment:"
       +:+ LF +:+ LF +:+ py_str text;
     "themes" :=
       "Identify and explain the main themes in this text:"
       +:+ LF +:+ LF +:+ py_str text;
     "summary" :=
       "Provide a concise summary of this text:"
       +:+ LF +:+ LF +:+ py_str text;
     "key_points" :=
       "Extract the key points from this text as a bulleted list:"
       +:+ LF +:+ LF +:+ py_str text ]}.

(** The request an analysis sends, once the prompt is chosen. *)
Definition analyze_request (prompt : string) : completion_request :=
  {| model := PStr "gpt-4o";
     messages := [Message "user" (PStr prompt)];
     max_tokens := 1000 |}.

(** The request a chat sends. *)
Definition chat_request (model system_prompt message : pyval) : completion_request :=
  {| model := model;
     messages := [Message "system" system_prompt; Message "user" message];
     max_tokens := 1000 |}.

(** *** api/index.py *)

Definition handle_chat (data : gmap string pyval) : Py pyval :=
  let message := dict_get data "message" (PStr "") in
  let system_prompt :=
    dict_get data "system_prompt" (PStr "You are a helpful AI assistant.") in
  let model := dict_get data "model" (PStr "gpt-4o") in
  try_except
    (response ← completions_create (chat_request model system_prompt message);
     choice ← lift (index0 (choices response));
     mret (PDict {[ "success" := PBool true;
                    "response" := PStr choice;
                    "model" := model;
                    "usage" := usage_dict (usage response) ]}))
    (λ e, mret (failure e)).

Definition handle_analyze (data : gmap string pyval) : Py pyval :=
  let text := dict_get data "text" (PStr "") in
  let analysis_type := dict_get data "analysis_type" (PStr "summary") in
  let prompts := prompts text in
  try_except
    (fallback ← lift (subscript prompts (PStr "summary"));
     prompt ← lift (get_or prompts analysis_type fallback);
     response ← completions_create (analyze_request prompt);
     choice ← lift (index0 (choices response));
     mret (PDict {[ "success" := PBool true;
                    "analysis" := PStr choice;
                    "type" := analysis_type;
                    "usage" := usage_dict (usage response) ]}))
    (λ e, mret (failure e)).

Definition handle_list_tools : Py pyval :=
  mret (PDict {[
    "success" := PBool true;
    "tools" := PList [
      PDict {[ "name" := PStr "chat";
               "description" := PStr "Chat with ChatGPT";
               "parameters" := PList [
                 PStr "message";
                 PStr "system_prompt (optional)";
                 PStr "model (optional: gpt-4o, gpt-4o-mini, gpt-4-turbo)" ] ]};
      PDict {[ "name" := PStr "analyze";
               "description" := PStr "Analyze text";
               "parameters" := PList [
                 PStr "text";
                 PStr "analysis_type (sentiment|themes|summary|key_points)" ] ]} ] ]}).

(** Status line, the two headers and the serialised body, in the order in
    which every JSON answer of the handler sends them. *)
Definition send_json (code : Z) (response : pyval) : Py unit :=
  send_response code;;
  send_header "Content-type" "application/json";;
  send_header "Access-Control-Allow-Origin" "*";;
  end_headers;;
  wfile_write (json_dumps response).

Definition unknown_action : pyval := PDict {[ "error" := PStr "Unknown action" ]}.

(** [do_POST] from its [try] statement on; [post_data] is the body that the
    two lines before it have read from the connection. *)
Definition do_POST (post_data : string) : Py unit :=
  try_except
    (data ← lift (json_loads post_data);
     data_get ← lift (getattr_get data);
     let action := dict_get data_get "action" PNone in
     response ←
       (if py_eq_str action "chat" then handle_chat data_get
        else if py_eq_str action "analyze" then handle_analyze data_get
        else if py_eq_str action "list_tools" then handle_list_tools
        else mret unknown_action);
     send_json 200 response)
    (λ e, send_json 500 (PDict {[ "error" := PStr (str_exn e) ]})).

Definition do_OPTIONS : Py unit :=
  send_response 200;;
  send_header "Access-Control-Allow-Origin" "*";;
  send_header "Access-Control-Allow-Methods" "POST, OPTIONS";;
  send_header "Access-Control-Allow-Headers" "Content-Type";;
  end_headers.

Definition status_document : pyval :=
  PDict {[ "status" := PStr "online";
           "service" := PStr "MCP ChatGPT Server";
           "endpoints" := PDict {[
             "POST /api" := PStr "Main API endpoint";
             "actions" := PList [PStr "chat"; PStr "analyze"; PStr "list_tools"] ]} ]}.

Definition do_GET : Py unit :=
  send_response 200;;
  send_header "Content-type" "application/json";;
  send_header "Access-Control-Allow-Origin" "*";;
  end_headers;;
  wfile_write (json_dumps status_document).

(** *** server.py *)

Definition call_tool (name : string) (arguments : gmap string pyval)
  : Py (list TextContent) :=
  if bool_decide (name = "chat_with_gpt") then
    let message := dict_get arguments "message" PNone in
    let system_prompt :=
      dict_get arguments "system_prompt" (PStr "You are a helpful AI assistant.") in
    let model := dict_get arguments "model" (PStr "gpt-4o") in
    try_except
      (response ← completions_create (chat_request model system_prompt message);
       result ← lift (index0 (choices response));
       mret [MkTextContent "text" result])
      (λ e, mret [MkTextContent "text" ("Error calling ChatGPT: " +:+ str_exn e)])
  else if bool_decide (name = "analyze_text") then
    let text := dict_get arguments "text" PNone in
    let analysis_type := dict_get arguments "analysis_type" PNone in
    let prompts := prompts text in
    try_except
      (prompt ← lift (subscript prompts analysis_type);
       response ← completions_create (analyze_request prompt);
       result ← lift (index0 (choices response));
       mret [MkTextContent "text" result])
      (λ e, mret [MkTextContent "text" ("Error analyzing text: " +:+ str_exn e)])
  else
    mret [MkTextContent "text" ("Unknown tool: " +:+ name)].

(** *** api/index.py: the head of [do_POST] *)

(** [int(None)], what a request without the header leads to (the message
    is CPython's, from version 3.10 on). *)
Definition TypeError_int_None : exn :=
  Exn "TypeError"
      "int() argument must be a string, a bytes-like object or a real number, not 'NoneType'".

(** [int(self.headers['Content-Length'])]: the header lookup gives [None]
    when the request has no such header. *)
Definition py_int (content_length : option string) : result Z :=
  match content_length with
  | Some s => int_str s
  | None => Fault TypeError_int_None
  end.

(** The first [n] bytes of [s]. *)
Fixpoint first_bytes (n : nat) (s : string) : string :=
  match n, s with
  | S n', String c s' => String c (first_bytes n' s')
  | _, _ => EmptyString
  end.

(** [self.rfile.read(n)] on a stream that holds [rfile] up to its end: at
    most [n] bytes, and all of them when [n] is negative. *)
Definition rfile_read (n : Z) (rfile : string) : string :=
  if n <? 0 then rfile else first_bytes (Z.to_nat n) rfile.

(** The whole of [do_POST]: the two lines that read the body, outside the
    [try] statement, then the [try] statement ([json_loads] stands for the
    decoding of the bytes as UTF-8 followed by [json.loads]).
    [content_length] is what [self.headers['Content-Length']] gives. *)
Definition do_POST_from_request (content_length : option string) (rfile : string)
  : Py unit :=
  n ← lift (py_int content_length);
  let post_data := rfile_read n rfile in
  do_POST post_data.

(** *** server.py: the tool list *)

(** [mcp.types.Tool], with the fields the code sets. *)
Record Tool : Type := MkTool {
  name : string;
  description : string;
  inputSchema : pyval
}.

Definition list_tools : list Tool := [
  MkTool "chat_with_gpt"
    "Send a message to ChatGPT and get a response. Use this for general conversations, questions, analysis, or any task requiring AI assistance."
    (PDict {[
       "type" := PStr "object";
       "properties" := PDict {[
         "message" := PDict {[
           "type" := PStr "string";
           "description" := PStr "The message or prompt to send to ChatGPT" ]};
         "system_prompt" := PDict {[
           "type" := PStr "string";
           "description" := PStr "Optional system prompt to guide ChatGPT's behavior";
           "default" := PStr "" ]};
         "model" := PDict {[
           "type" := PStr "string";
           "description" := PStr "GPT model to use";
           "enum" := PList [PStr "gpt-4o"; PStr "gpt-4o-mini"; PStr "gpt-4-turbo"];
           "default" := PStr "gpt-4o" ]} ]};
       "required" := PList [PStr "message"] ]});
  MkTool "analyze_text"
    "Analyze text for sentiment, themes, or specific patterns using ChatGPT"
    (PDict {[
       "type" := PStr "object";
       "properties" := PDict {[
         "text" := PDict {[
           "type" := PStr "string";
           "description" := PStr "The text to analyze" ]};
         "analysis_type" := PDict {[
           "type" := PStr "string";
           "enum" := PList [PStr "sentiment"; PStr "themes"; PStr "summary";
                            PStr "key_points"];
           "description" := PStr "Type of analysis to perform" ]} ]};
       "required" := PList [PStr "text"; PStr "analysis_type"] ]})
].

(** ** Reading a schema and a document *)

(** [v[key]] when [v] is a dict that has the key. *)
Definition entry (v : pyval) (key : string) : option pyval :=
  match v with
  | PDict d => d !! key
  | _ => None
  end.

(** [v[key1][key2]] likewise. *)
Definition entry2 (v : pyval) (key1 key2 : string) : option pyval :=
  match entry v key1 with
  | Some inner => entry inner key2
  | None => None
  end.

(** The items of a list value. *)
Definition items (v : option pyval) : list pyval :=
  match v with
  | Some (PList l) => l
  | _ => []
  end.

(** The keys a schema lists under [required]. *)
Definition required_of (schema : pyval) : list pyval :=
  items (entry schema "required").

(** The values a schema allows for the property [key], when it restricts
    them by [enum]. *)
Definition enum_of (schema : pyval) (key : string) : option (list pyval) :=
  match entry2 schema "properties" key with
  | Some p =>
      match entry p "enum" with
      | Some (PList l) => Some l
      | _ => None
      end
  | None => None
  end.

(** The [default] a schema declares for the property [key]. *)
Definition default_of (schema : pyval) (key : string) : option pyval :=
  match entry2 schema "properties" key with
  | Some p => entry p "default"
  | None => None
  end.

(** What of a schema the tool call depends on: every required key is among
    the arguments, and an argument whose property has an [enum] is one of
    its values. *)
Definition conforms (schema : pyval) (arguments : gmap string pyval) : Prop :=
  (∀ key, PStr key ∈ required_of schema → is_Some (arguments !! key)) ∧
  (∀ key v allowed,
     arguments !! key = Some v → enum_of schema key = Some allowed → v ∈ allowed).

(** The actions the status document of [do_GET] lists. *)
Definition listed_actions : list pyval :=
  items (entry2 status_document "endpoints" "actions").

(** ** The shape of an HTTP answer *)

Definition is_header (ev : wire_event) : Prop :=
  ∃ keyword value, ev = Header keyword value.

(** A status line, header lines with the open CORS header among them, the
    end of the headers, and then [bodies]. *)
Definition framed (events : list wire_event) (code : Z) (bodies : list json_text) : Prop :=
  ∃ headers,
    events = Status code :: headers ++ EndHeaders :: (Body <$> bodies) ∧
    Forall is_header headers ∧
    Header "Access-Control-Allow-Origin" "*" ∈ headers.

(** What the stdio surface shows of a response of the HTTP surface: the
    generated text stored under [field], or the error message behind
    [prefix]. *)
Definition shown (prefix field : string) (response : pyval) : option string :=
  match entry response "success" with
  | Some (PBool true) =>
      match entry response field with
      | Some (PStr generated) => Some generated
      | _ => None
      end
  | Some (PBool false) =>
      match entry response "error" with
      | Some (PStr msg) => Some (prefix +:+ msg)
      | _ => None
      end
  | _ => None
  end.

(** *** server.py: the handler that [@app.call_tool()] registers *)

(** [mcp.types.CallToolResult], with the fields the handler sets. *)
Record CallToolResult : Type := MkCallToolResult {
  tool_content : list TextContent;
  isError : bool
}.

(** The listed tool of that name, if there is one. *)
Definition listed_tool (tool_name : string) : option Tool :=
  find (λ tool, bool_decide (name tool = tool_name)) list_tools.

(** What is assumed of [jsonschema.validate(instance, schema)], which is
    not code of this repository.  [validate instance schema] is [None] when
    the instance is valid and the message of the [ValidationError] when it
    is not; for the input schemas of the two listed tools, an instance that
    lacks a required key is not valid, and neither is one whose value for a
    property with an [enum] is none of the enumerated values. *)
Definition rejects_required_and_enum (validate : pyval → pyval → option string)
  : Prop :=
  (∀ tool arguments key,
     tool ∈ list_tools →
     PStr key ∈ required_of (inputSchema tool) →
     arguments !! key = None →
     is_Some (validate (PDict arguments) (inputSchema tool))) ∧
  (∀ tool arguments key v allowed,
     tool ∈ list_tools →
     arguments !! key = Some v →
     enum_of (inputSchema tool) key = Some allowed →
     v ∉ allowed →
     is_Some (validate (PDict arguments) (inputSchema tool))).

(** What the decorator [@app.call_tool()] of the MCP library makes of
    [call_tool], and what a tool call on the stdio surface runs, given the
    validator: the arguments are validated against the input schema of the
    listed tool of that name; when they are not valid the answer is an
    error result with the validator's message and the function is not
    called; otherwise (and for a name that is not listed) the function is
    called, its items are the answer, and a fault it raised would be
    answered as an error result. *)
Definition registered_call_tool (validate : pyval → pyval → option string)
    (tool_name : string) (arguments : gmap string pyval) : Py CallToolResult :=
  try_except
    (match listed_tool tool_name with
     | Some tool =>
         match validate (PDict arguments) (inputSchema tool) with
         | Some msg =>
             mret (MkCallToolResult
                     [MkTextContent "text" ("Input validation error: " +:+ msg)] true)
         | None =>
             results ← call_tool tool_name arguments;
             mret (MkCallToolResult results false)
         end
     | None =>
         results ← call_tool tool_name arguments;
         mret (MkCallToolResult results false)
     end)
    (λ e, mret (MkCallToolResult [MkTextContent "text" (str_exn e)] true)).

(** *** A validator for the concrete runs

    It checks the required keys and the enumerated values of string
    properties, with the messages of [jsonschema]. *)

Fixpoint first_missing (keys : list pyval) (arguments : gmap string pyval)
  : option string :=
  match keys with
  | PStr key :: rest =>
      match arguments !! key with
      | None => Some key
      | Some _ => first_missing rest arguments
      end
  | _ :: rest => first_missing rest arguments
  | [] => None
  end.

(** [v] is one of the strings of [allowed]. *)
Definition str_in (v : pyval) (allowed : list pyval) : bool :=
  match v with
  | PStr s => existsb (λ a, py_eq_str a s) allowed
  | _ => false
  end.

(** The keys of the properties of a schema. *)
Definition property_keys (schema : pyval) : list string :=
  match entry schema "properties" with
  | Some (PDict props) => (map_to_list props).*1
  | _ => []
  end.

Fixpoint first_outside (keys : list string) (schema : pyval)
    (arguments : gmap string pyval) : option (pyval * list pyval) :=
  match keys with
  | key :: rest =>
      match arguments !! key, enum_of schema key with
      | Some v, Some allowed =>
          if str_in v allowed then first_outside rest schema arguments
          else Some (v, allowed)
      | _, _ => first_outside rest schema arguments
      end
  | [] => None
  end.

(** [repr] of a list, from the printed items. *)
Fixpoint joined (printed : list string) : string :=
  match printed with
  | [] => ""
  | [x] => x
  | x :: rest => x +:+ ", " +:+ joined rest
  end.

Definition checks_required_and_enum (instance schema : pyval) : option string :=
  match instance with
  | PDict arguments =>
      match first_missing (required_of schema) arguments with
      | Some key => Some ("'" +:+ key +:+ "' is a required property")
      | None =>
          match first_outside (property_keys schema) schema arguments with
          | Some (v, allowed) =>
              Some (Stub.repr v +:+ " is not one of [" +:+
                    joined (Stub.repr <$> allowed) +:+ "]")
          | None => None
          end
      end
  | _ => Some (Stub.repr instance +:+ " is not of type 'object'")
  end.

(** ** Vocabulary of the statements *)

(** The history after one more provider call. *)
Definition called (req : completion_request) (w : world) : world :=
  World (calls w ++ [req]) (wire w).

(** The history after a JSON answer has gone out. *)
Definition answered (code : Z) (response : pyval) (w : world) : world :=
  World (calls w)
        (wire w ++ [Status code;
                    Header "Content-type" "application/json";
                    Header "Access-Control-Allow-Origin" "*";
                    EndHeaders;
                    Body (json_dumps response)]).

(** The request a chat on the HTTP surface sends for [data]. *)
Definition http_chat_request (data : gmap string pyval) : completion_request :=
  chat_request (dict_get data "model" (PStr "gpt-4o"))
               (dict_get data "system_prompt" (PStr "You are a helpful AI assistant."))
               (dict_get data "message" (PStr "")).

(** The request a chat on the stdio surface sends for [arguments]. *)
Definition stdio_chat_request (arguments : gmap string pyval) : completion_request :=
  chat_request (dict_get arguments "model" (PStr "gpt-4o"))
               (dict_get arguments "system_prompt" (PStr "You are a helpful AI assistant."))
               (dict_get arguments "message" PNone).

(** The success variant of the chat relay on the HTTP surface. *)
Definition chat_success (model : pyval) (choice : string) (u : Usage) : pyval :=
  PDict {[ "success" := PBool true;
           "response" := PStr choice;
           "model" := model;
           "usage" := usage_dict u ]}.

(** The success variant of the analysis relay on the HTTP surface. *)
Definition analyze_success (analysis_type : pyval) (choice : string) (u : Usage) : pyval :=
  PDict {[ "success" := PBool true;
           "analysis" := PStr choice;
           "type" := analysis_type;
           "usage" := usage_dict u ]}.

(** The actions the router has a handler for. *)
Definition routed (action : pyval) : bool :=
  py_eq_str action "chat" || py_eq_str action "analyze" || py_eq_str action "list_tools".

(** What holds of every request an analysis sends. *)
Definition fixed_model_and_cap (req : completion_request) : Prop :=
  model req = PStr "gpt-4o" ∧ max_tokens req = 1000.

(** ** The monad's steps *)

Ltac step := unfold try_except, mbind, Py_bind, mret, Py_ret, lift,
  completions_create, called in *; cbn [fst snd] in *.

Lemma send_json_answered code response w :
  send_json code response w = (Ok tt, answered code response w).
Proof.
  unfold send_json, answered, send_response, send_header, end_headers,
    wfile_write, emit. step. cbn.
  by rewrite <- !app_assoc.
Qed.


(** ** What one run of a handler does *)

(** The chat relay of the HTTP surface calls the provider once and always
    returns a response. *)
Lemma handle_chat_run data w :
  handle_chat data w =
    (Ok match create (http_chat_request data) with
        | Ok response =>
            match choices response with
            | choice :: _ =>
                chat_success (dict_get data "model" (PStr "gpt-4o")) choice (usage response)
            | [] => failure IndexError
            end
        | Fault e => failure e
        end,
     called (http_chat_request data) w).
Proof.
  unfold handle_chat, http_chat_request. step.
  destruct (create _) as [response|e]; [|done].
  by destruct (choices response).
Qed.

(** The chat tool of the stdio surface calls the provider once and always
    returns one text item. *)
Lemma call_tool_chat_run arguments w :
  call_tool "chat_with_gpt" arguments w =
    (Ok [MkTextContent "text"
           match create (stdio_chat_request arguments) with
           | Ok response =>
               match choices response with
               | result :: _ => result
               | [] => "Error calling ChatGPT: " +:+ str_exn IndexError
               end
           | Fault e => "Error calling ChatGPT: " +:+ str_exn e
           end],
     called (stdio_chat_request arguments) w).
Proof.
  unfold call_tool, stdio_chat_request. cbn [bool_decide decide_rel]. step.
  rewrite bool_decide_eq_true_2; [|done].
  destruct (create _) as [response|e]; [|done].
  by destruct (choices response).
Qed.

Lemma prompts_summary text :
  prompts text !! "summary" =
    Some ("Provide a concise summary of this text:" +:+ LF +:+ LF +:+ py_str text).
Proof. unfold prompts. by simplify_map_eq. Qed.

(** The code's prompts against the specification's table: for a kind of the
    table the prompt is the instruction, two line feeds, and the text. *)
Lemma prompts_defined text t instruction :
  spec_instruction t = Some instruction →
  prompts text !! t = Some (instruction +:+ LF +:+ LF +:+ py_str text).
Proof.
  unfold spec_instruction, prompts.
  repeat case_bool_decide; intros; simplify_map_eq; done.
Qed.

Lemma prompts_undefined text s :
  ¬ defined_type s → prompts text !! s = None.
Proof.
  clear json_loads create int_str. unfold defined_type, prompts. intros H.
  rewrite !lookup_insert_ne, lookup_singleton_ne; [done | intros <-; tauto ..].
Qed.

Lemma spec_instruction_defined t :
  defined_type t ↔ is_Some (spec_instruction t).
Proof.
  clear. unfold defined_type, spec_instruction. split.
  - intros [-> | [-> | [-> | ->]]]; by eexists.
  - repeat case_bool_decide; intros [? ?]; (tauto || done).
Qed.

(** The analysis relay of the HTTP surface, once the prompt lookup has
    returned [prompt]: one provider call, and a response. *)
Lemma handle_analyze_run data w prompt :
  get_or (prompts (dict_get data "text" (PStr "")))
         (dict_get data "analysis_type" (PStr "summary"))
         ("Provide a concise summary of this text:" +:+ LF +:+ LF +:+
          py_str (dict_get data "text" (PStr ""))) = Ok prompt →
  handle_analyze data w =
    (Ok match create (analyze_request prompt) with
        | Ok response =>
            match choices response with
            | choice :: _ =>
                analyze_success (dict_get data "analysis_type" (PStr "summary"))
                                choice (usage response)
            | [] => failure IndexError
            end
        | Fault e => failure e
        end,
     called (analyze_request prompt) w).
Proof.
  intros Hget. unfold handle_analyze. step.
  unfold subscript at 1. rewrite prompts_summary, Hget.
  destruct (create _) as [response|e]; [|done].
  by destruct (choices response).
Qed.

(** The same relay when the lookup raises: no provider call, the failure
    variant. *)
Lemma handle_analyze_lookup_fault data w e :
  get_or (prompts (dict_get data "text" (PStr "")))
         (dict_get data "analysis_type" (PStr "summary"))
         ("Provide a concise summary of this text:" +:+ LF +:+ LF +:+
          py_str (dict_get data "text" (PStr ""))) = Fault e →
  handle_analyze data w = (Ok (failure e), w).
Proof.
  intros Hget. unfold handle_analyze. step.
  unfold subscript at 1. by rewrite prompts_summary, Hget.
Qed.

(** The analysis tool of the stdio surface, by the outcome of
    [prompts[analysis_type]]. *)
Lemma call_tool_analyze_run arguments w :
  call_tool "analyze_text" arguments w =
    match subscript (prompts (dict_get arguments "text" PNone))
                    (dict_get arguments "analysis_type" PNone) with
    | Ok prompt =>
        (Ok [MkTextContent "text"
               match create (analyze_request prompt) with
               | Ok response =>
                   match choices response with
                   | result :: _ => result
                   | [] => "Error analyzing text: " +:+ str_exn IndexError
                   end
               | Fault e => "Error analyzing text: " +:+ str_exn e
               end],
         called (analyze_request prompt) w)
    | Fault e => (Ok [MkTextContent "text" ("Error analyzing text: " +:+ str_exn e)], w)
    end.
Proof.
  unfold call_tool. step.
  rewrite bool_decide_eq_false_2; [|done].
  rewrite bool_decide_eq_true_2; [|done].
  destruct (subscript _ _) as [prompt|e]; [|done].
  destruct (create _) as [response|e]; [|done].
  by destruct (choices response).
Qed.


Lemma dict_get_Some d key dflt v : d !! key = Some v → dict_get d key dflt = v.
Proof. unfold dict_get. by intros ->. Qed.

Lemma dict_get_None d key dflt : d !! key = None → dict_get d key dflt = dflt.
Proof. unfold dict_get. by intros ->. Qed.

Lemma py_eq_str_spec v s : py_eq_str v s = true ↔ v = PStr s.
Proof.
  destruct v; cbn; try (split; [discriminate | congruence]).
  rewrite bool_decide_eq_true. split; congruence.
Qed.

Lemma py_eq_str_true s : py_eq_str (PStr s) s = true.
Proof. by apply py_eq_str_spec. Qed.

Lemma py_eq_str_false v s : v ≠ PStr s → py_eq_str v s = false.
Proof.
  intros Hne. destruct (py_eq_str v s) eqn:Heq; [|done].
  by apply py_eq_str_spec in Heq.
Qed.

(** Both HTTP relays always hand a response back to the router. *)
Lemma handle_chat_returns data w :
  ∃ r w', handle_chat data w = (Ok r, w').
Proof. rewrite handle_chat_run. eauto. Qed.

Lemma handle_analyze_returns data w :
  ∃ r w', handle_analyze data w = (Ok r, w').
Proof.
  destruct (get_or (prompts (dict_get data "text" (PStr "")))
              (dict_get data "analysis_type" (PStr "summary"))
              ("Provide a concise summary of this text:" +:+ LF +:+ LF +:+
               py_str (dict_get data "text" (PStr "")))) as [prompt|e] eqn:Hget.
  - rewrite (handle_analyze_run _ _ _ Hget). eauto.
  - rewrite (handle_analyze_lookup_fault _ _ _ Hget). eauto.
Qed.

(** The router on a body that decodes to a dict, by the handler's run. *)
Lemma do_POST_dict post_data data w :
  json_loads post_data = Ok (PDict data) →
  do_POST post_data w =
    match (if py_eq_str (dict_get data "action" PNone) "chat" then handle_chat data
           else if py_eq_str (dict_get data "action" PNone) "analyze" then handle_analyze data
           else if py_eq_str (dict_get data "action" PNone) "list_tools" then handle_list_tools
           else mret unknown_action) w with
    | (Ok response, w') => (Ok tt, answered 200 response w')
    | (Fault e, w') => (Ok tt, answered 500 (PDict {[ "error" := PStr (str_exn e) ]}) w')
    end.
Proof.
  intros Hloads. unfold do_POST. step. rewrite Hloads. cbn [getattr_get].
  destruct (_ w) as [[response|e] w']; by rewrite send_json_answered.
Qed.

(** ** The claims *)

(** C1.  When the provider raises during a chat call, the fault [e] is
    caught where it is raised.  On the HTTP surface [handle_chat] returns
    the failure variant [{success: False, error: str(e)}], which the router
    answers with status 200; on the stdio surface [call_tool] returns the
    single text item "Error calling ChatGPT: " followed by [str(e)].  In
    both cases the handler returns normally, so nothing reaches the
    transport adapter as an exception. *)
Theorem chat_provider_fault_reported (e : exn) :
  (∀ data w,
     create (http_chat_request data) = Fault e →
     handle_chat data w =
       (Ok (PDict {[ "success" := PBool false; "error" := PStr (str_exn e) ]}),
        called (http_chat_request data) w)) ∧
  (∀ post_data data w,
     json_loads post_data = Ok (PDict data) →
     data !! "action" = Some (PStr "chat") →
     create (http_chat_request data) = Fault e →
     do_POST post_data w =
       (Ok tt,
        answered 200 (PDict {[ "success" := PBool false; "error" := PStr (str_exn e) ]})
                 (called (http_chat_request data) w))) ∧
  (∀ arguments w,
     create (stdio_chat_request arguments) = Fault e →
     call_tool "chat_with_gpt" arguments w =
       (Ok [MkTextContent "text" ("Error calling ChatGPT: " +:+ str_exn e)],
        called (stdio_chat_request arguments) w)).
Proof.
  split; [|split].
  - intros data w He. by rewrite handle_chat_run, He.
  - intros post_data data w Hloads Haction He.
    rewrite (do_POST_dict _ _ _ Hloads), (dict_get_Some _ _ _ _ Haction).
    by rewrite py_eq_str_true, handle_chat_run, He.
  - intros arguments w He. by rewrite call_tool_chat_run, He.
Qed.

(** C8.  A tool call whose name is neither "chat_with_gpt" nor
    "analyze_text" returns exactly one text item, "Unknown tool: " followed
    by the name, and calls nothing. *)
Theorem unknown_tool_text name arguments w :
  name ≠ "chat_with_gpt" →
  name ≠ "analyze_text" →
  call_tool name arguments w =
    (Ok [MkTextContent "text" ("Unknown tool: " +:+ name)], w).
Proof.
  intros Hchat Hanalyze. unfold call_tool.
  by rewrite !bool_decide_eq_false_2.
Qed.


(** C2, as amended.  For every POST whose body decodes to a JSON object,
    the router runs exactly one handler, chosen by the [action] entry:
    "chat" runs the chat relay, "analyze" the analysis relay, "list_tools"
    the tool catalog, and the handler's response is answered with status
    200.  Every other action value, a missing one included, is answered
    with [{"error": "Unknown action"}] and status 200, and no provider call
    is made. *)
Theorem post_dispatch post_data data w :
  json_loads post_data = Ok (PDict data) →
  (dict_get data "action" PNone = PStr "chat" →
     ∃ response w', handle_chat data w = (Ok response, w') ∧
                    do_POST post_data w = (Ok tt, answered 200 response w')) ∧
  (dict_get data "action" PNone = PStr "analyze" →
     ∃ response w', handle_analyze data w = (Ok response, w') ∧
                    do_POST post_data w = (Ok tt, answered 200 response w')) ∧
  (dict_get data "action" PNone = PStr "list_tools" →
     ∃ response, handle_list_tools w = (Ok response, w) ∧
                 do_POST post_data w = (Ok tt, answered 200 response w)) ∧
  (dict_get data "action" PNone ≠ PStr "chat" →
   dict_get data "action" PNone ≠ PStr "analyze" →
   dict_get data "action" PNone ≠ PStr "list_tools" →
     do_POST post_data w =
       (Ok tt, answered 200 (PDict {[ "error" := PStr "Unknown action" ]}) w)).
Proof.
  intros Hloads. rewrite (do_POST_dict _ _ _ Hloads).
  repeat split.
  - intros ->. rewrite py_eq_str_true.
    destruct (handle_chat_returns data w) as (response & w' & Hrun).
    exists response, w'. by rewrite Hrun.
  - intros ->. rewrite py_eq_str_false, py_eq_str_true by done.
    destruct (handle_analyze_returns data w) as (response & w' & Hrun).
    exists response, w'. by rewrite Hrun.
  - intros ->. rewrite !py_eq_str_false, py_eq_str_true by done.
    eexists. split; reflexivity.
  - intros Hchat Hanalyze Hlist. by rewrite !py_eq_str_false.
Qed.

(** The handler registered for the tools: what it answers when the
    validator rejects the arguments, and when the function is run. *)
Lemma registered_call_tool_rejected validate tool_name tool arguments msg w :
  listed_tool tool_name = Some tool →
  validate (PDict arguments) (inputSchema tool) = Some msg →
  registered_call_tool validate tool_name arguments w =
    (Ok (MkCallToolResult
           [MkTextContent "text" ("Input validation error: " +:+ msg)] true), w).
Proof. intros Htool Hmsg. unfold registered_call_tool. step. by rewrite Htool, Hmsg. Qed.

Lemma listed_tool_chat :
  ∃ tool, listed_tool "chat_with_gpt" = Some tool ∧ tool ∈ list_tools ∧
          required_of (inputSchema tool) = [PStr "message"].
Proof.
  clear. eexists. split; [reflexivity|]. split; [|reflexivity].
  apply elem_of_cons. by left.
Qed.

Lemma listed_tool_analyze :
  ∃ tool, listed_tool "analyze_text" = Some tool ∧ tool ∈ list_tools ∧
          required_of (inputSchema tool) = [PStr "text"; PStr "analysis_type"] ∧
          enum_of (inputSchema tool) "analysis_type" =
            Some [PStr "sentiment"; PStr "themes"; PStr "summary"; PStr "key_points"].
Proof.
  clear. eexists. split; [reflexivity|]. split; [|split; reflexivity].
  apply elem_of_cons. right. apply elem_of_cons. by left.
Qed.

(** C3, as amended.  On the stdio surface a chat request without [message]
    fails and the provider is not called: the handler registered for the
    tools validates the arguments against the input schema, which requires
    [message], and answers with an error result that carries the
    validation error as plain text.  On the HTTP surface there is no such
    check: [handle_chat] takes the default [''] as the user message and
    calls the provider once with it, and when the provider answers with a
    choice the relay returns the success variant. *)
Theorem chat_without_message_by_surface validate data arguments w :
  rejects_required_and_enum validate →
  (arguments !! "message" = None →
     ∃ msg,
       registered_call_tool validate "chat_with_gpt" arguments w =
         (Ok (MkCallToolResult
                [MkTextContent "text" ("Input validation error: " +:+ msg)] true),
          w)) ∧
  (data !! "message" = None →
     let req :=
       {| model := dict_get data "model" (PStr "gpt-4o");
          messages :=
            [Message "system"
               (dict_get data "system_prompt" (PStr "You are a helpful AI assistant."));
             Message "user" (PStr "")];
          max_tokens := 1000 |} in
     snd (handle_chat data w) = World (calls w ++ [req]) (wire w) ∧
     ∀ response choice rest,
       create req = Ok response →
       choices response = choice :: rest →
       fst (handle_chat data w) =
         Ok (PDict {[ "success" := PBool true;
                      "response" := PStr choice;
                      "model" := dict_get data "model" (PStr "gpt-4o");
                      "usage" := PDict {[
                        "prompt_tokens" := PInt (prompt_tokens (usage response));
                        "completion_tokens" := PInt (completion_tokens (usage response));
                        "total_tokens" := PInt (total_tokens (usage response)) ]} ]})).
Proof.
  intros [Hrequired _]. split.
  - intros Hmissing.
    destruct listed_tool_chat as (tool & Htool & Hin & Hreq).
    destruct (Hrequired tool arguments "message" Hin) as [msg Hmsg]; [|done|].
    { rewrite Hreq. apply elem_of_cons. by left. }
    exists msg. by apply registered_call_tool_rejected with tool.
  - intros Hmissing req. subst req.
    rewrite handle_chat_run. unfold http_chat_request, chat_request.
    rewrite (dict_get_None _ "message" _ Hmissing). split; [done|].
    intros response choice rest -> Hchoices. cbn [fst]. by rewrite Hchoices.
Qed.

(** Each of the three handlers returns a dict with a boolean [success]. *)
Lemma handle_chat_success_field data w :
  ∃ body b w', handle_chat data w = (Ok (PDict body), w') ∧
               body !! "success" = Some (PBool b).
Proof.
  rewrite handle_chat_run.
  destruct (create _) as [response|e]; [destruct (choices response)|];
    do 3 eexists; (split; [reflexivity|by simplify_map_eq]).
Qed.

Lemma handle_analyze_success_field data w :
  ∃ body b w', handle_analyze data w = (Ok (PDict body), w') ∧
               body !! "success" = Some (PBool b).
Proof.
  destruct (get_or (prompts (dict_get data "text" (PStr "")))
              (dict_get data "analysis_type" (PStr "summary"))
              ("Provide a concise summary of this text:" +:+ LF +:+ LF +:+
               py_str (dict_get data "text" (PStr "")))) as [prompt|e] eqn:Hget.
  - rewrite (handle_analyze_run _ _ _ Hget).
    destruct (create _) as [response|e]; [destruct (choices response)|];
      do 3 eexists; (split; [reflexivity|by simplify_map_eq]).
  - rewrite (handle_analyze_lookup_fault _ _ _ Hget).
    do 3 eexists. split; [reflexivity|by simplify_map_eq].
Qed.

Lemma handle_list_tools_success_field w :
  ∃ body, handle_list_tools w = (Ok (PDict body), w) ∧
          body !! "success" = Some (PBool true).
Proof. eexists. split; [reflexivity|by simplify_map_eq]. Qed.

Lemma error_only_no_success (msg : string) :
  ({[ "error" := PStr msg ]} : gmap string pyval) !! "success" = None.
Proof. by simplify_map_eq. Qed.

(** C4, as amended.  [do_POST] answers every body and never raises: its
    [try] statement turns a fault of the decoding or of the dispatch into
    the answer [{"error": str(e)}] with status 500.  When the body decodes
    to a JSON object and the action is one of "chat", "analyze" and
    "list_tools", the answer has status 200 and is a JSON object with a
    boolean [success].  The router's own two answers, the unknown-action
    one with status 200 and the fault one with status 500, are JSON objects
    with the single entry [error] and carry no [success]. *)
Theorem post_always_answers post_data w :
  ∃ code body w',
    do_POST post_data w = (Ok tt, answered code (PDict body) w') ∧
    match json_loads post_data with
    | Ok (PDict data) =>
        code = 200 ∧
        if routed (dict_get data "action" PNone)
        then ∃ b, body !! "success" = Some (PBool b)
        else body = {[ "error" := PStr "Unknown action" ]} ∧
             body !! "success" = None
    | Ok v =>
        code = 500 ∧
        body = {[ "error" := PStr (str_exn (AttributeError v "get")) ]} ∧
        body !! "success" = None
    | Fault e =>
        code = 500 ∧
        body = {[ "error" := PStr (str_exn e) ]} ∧
        body !! "success" = None
    end.
Proof.
  destruct (json_loads post_data) as [v|e] eqn:Hloads.
  - destruct v as [ | b | z | literal | s | l | data ].
    7: {
      rewrite (do_POST_dict _ _ _ Hloads). unfold routed.
      destruct (py_eq_str _ "chat"); [|destruct (py_eq_str _ "analyze");
        [|destruct (py_eq_str _ "list_tools")]]; cbn [orb].
      - destruct (handle_chat_success_field data w) as (body & b & w' & -> & Hb).
        exists 200, body, w'. eauto.
      - destruct (handle_analyze_success_field data w) as (body & b & w' & -> & Hb).
        exists 200, body, w'. eauto.
      - destruct (handle_list_tools_success_field w) as (body & -> & Hb).
        exists 200, body, w. eauto.
      - exists 200, {[ "error" := PStr "Unknown action" ]}, w.
        split; [done|]. split; [done|]. split; [done|apply error_only_no_success].
    }
    all: unfold do_POST; step; rewrite Hloads; cbn [getattr_get];
      rewrite send_json_answered; do 3 eexists;
      (split; [reflexivity|]); split; [done|];
      (split; [done|apply error_only_no_success]).
  - unfold do_POST. step. rewrite Hloads, send_json_answered.
    do 3 eexists. split; [reflexivity|]. split; [done|].
    split; [done|apply error_only_no_success].
Qed.


(** [d.get(k, dflt)] raises only on a key that cannot be hashed. *)
Lemma get_or_fault d k dflt e :
  get_or d k dflt = Fault e → hashable k = false ∧ e = TypeError_unhashable k.
Proof. destruct k; cbn; intros; by simplify_eq. Qed.

Lemma get_or_undefined text s dflt :
  ¬ defined_type s → get_or (prompts text) (PStr s) dflt = Ok dflt.
Proof. intros Hs. cbn. by rewrite (prompts_undefined _ _ Hs). Qed.

Lemma subscript_defined text t instruction :
  spec_instruction t = Some instruction →
  subscript (prompts text) (PStr t) = Ok (instruction +:+ LF +:+ LF +:+ py_str text).
Proof. intros Ht. cbn. by rewrite (prompts_defined _ _ _ Ht). Qed.

Lemma get_or_defined text t instruction dflt :
  spec_instruction t = Some instruction →
  get_or (prompts text) (PStr t) dflt = Ok (instruction +:+ LF +:+ LF +:+ py_str text).
Proof. intros Ht. cbn. by rewrite (prompts_defined _ _ _ Ht). Qed.

(** A list or a dict as [analysis_type] cannot be hashed: both lookups
    raise the same [TypeError], neither surface calls the provider, and
    both report the fault. *)
Lemma analyze_unhashable_type v data w :
  data !! "analysis_type" = Some v →
  hashable v = false →
  handle_analyze data w = (Ok (failure (TypeError_unhashable v)), w) ∧
  call_tool "analyze_text" data w =
    (Ok [MkTextContent "text"
           ("Error analyzing text: " +:+ str_exn (TypeError_unhashable v))], w).
Proof.
  intros Htype Hv. split.
  - apply handle_analyze_lookup_fault. rewrite (dict_get_Some _ _ _ _ Htype).
    by destruct v.
  - rewrite call_tool_analyze_run, (dict_get_Some _ _ _ _ Htype).
    by destruct v.
Qed.

(** C5, as amended.  For each of the four kinds of the table, on both
    surfaces, the provider receives a single message, of role "user", whose
    content is the instruction of the table for that kind, then two line
    feeds (a blank line), then the input text unchanged. *)
Theorem analysis_prompt_matches_table t instruction txt data w :
  spec_instruction t = Some instruction →
  data !! "analysis_type" = Some (PStr t) →
  data !! "text" = Some (PStr txt) →
  let req := {| model := PStr "gpt-4o";
                messages := [Message "user" (PStr (instruction +:+ LF +:+ LF +:+ txt))];
                max_tokens := 1000 |} in
  snd (handle_analyze data w) = called req w ∧
  snd (call_tool "analyze_text" data w) = called req w.
Proof.
  intros Ht Htype Htext req. subst req. split.
  - rewrite (handle_analyze_run _ _ (instruction +:+ LF +:+ LF +:+ txt)); [done|].
    rewrite (dict_get_Some _ _ _ _ Htype), !(dict_get_Some _ _ _ _ Htext).
    exact (get_or_defined (PStr txt) _ _ _ Ht).
  - rewrite call_tool_analyze_run.
    rewrite (dict_get_Some _ _ _ _ Htype), !(dict_get_Some _ _ _ _ Htext).
    by rewrite (subscript_defined (PStr txt) _ _ Ht).
Qed.

(** [d.get(k, dflt)] and [d[k]] on the prompts, for a hashable key that is
    none of the four kinds. *)
Lemma get_or_outside text v dflt :
  hashable v = true →
  (∀ s, v = PStr s → ¬ defined_type s) →
  get_or (prompts text) v dflt = Ok dflt.
Proof.
  intros Hh Hv. destruct v as [ | b | z | literal | s | l | d ]; try done.
  by apply get_or_undefined, Hv.
Qed.

Lemma subscript_outside text v :
  hashable v = true →
  (∀ s, v = PStr s → ¬ defined_type s) →
  subscript (prompts text) v = Fault (KeyError v).
Proof.
  intros Hh Hv. destruct v as [ | b | z | literal | s | l | d ]; try done.
  cbn. by rewrite (prompts_undefined _ s (Hv s eq_refl)).
Qed.

Lemma outside_enum v :
  (∀ s, v = PStr s → ¬ defined_type s) →
  v ∉ [PStr "sentiment"; PStr "themes"; PStr "summary"; PStr "key_points"].
Proof.
  clear. intros Hv. rewrite !elem_of_cons, elem_of_nil. unfold defined_type in Hv.
  intros [-> | [-> | [-> | [-> | []]]]]; eapply Hv; eauto.
Qed.

(** C6, as amended.  For an analysis request whose [analysis_type] is a
    value outside the four defined kinds, the same for both surfaces:

    - the stdio surface fails and the provider is not called: the handler
      registered for the tools rejects the value against the [enum] of the
      input schema and answers with an error result that carries the
      validation error; [call_tool] itself, called with a hashable value,
      raises the lookup fault [KeyError] at [prompts[analysis_type]] before
      any provider call and returns "Error analyzing text: " followed by
      the fault's message;
    - the HTTP surface, for a hashable value (a string, a number, a
      boolean, null), sends the single user message built from the summary
      template and returns the success variant whenever the provider
      answers with a choice, so the two surfaces diverge;
    - for a value that cannot be hashed (a list, an object) the HTTP
      surface returns the failure variant with the [TypeError] of the
      lookup, and the provider is not called. *)
Theorem unknown_analysis_type_by_surface validate v data w :
  rejects_required_and_enum validate →
  data !! "analysis_type" = Some v →
  (∀ s, v = PStr s → ¬ defined_type s) →
  (∃ msg,
     registered_call_tool validate "analyze_text" data w =
       (Ok (MkCallToolResult
              [MkTextContent "text" ("Input validation error: " +:+ msg)] true),
        w)) ∧
  (hashable v = true →
     subscript (prompts (dict_get data "text" PNone)) v =
       Fault (Exn "KeyError" (py_repr v)) ∧
     call_tool "analyze_text" data w =
       (Ok [MkTextContent "text" ("Error analyzing text: " +:+ py_repr v)], w)) ∧
  (hashable v = true →
     let req :=
       {| model := PStr "gpt-4o";
          messages :=
            [Message "user"
               (PStr ("Provide a concise summary of this text:" +:+ LF +:+ LF +:+
                      py_str (dict_get data "text" (PStr ""))))];
          max_tokens := 1000 |} in
     snd (handle_analyze data w) = World (calls w ++ [req]) (wire w) ∧
     ∀ response choice rest,
       create req = Ok response →
       choices response = choice :: rest →
       fst (handle_analyze data w) =
         Ok (PDict {[ "success" := PBool true;
                      "analysis" := PStr choice;
                      "type" := v;
                      "usage" := PDict {[
                        "prompt_tokens" := PInt (prompt_tokens (usage response));
                        "completion_tokens" := PInt (completion_tokens (usage response));
                        "total_tokens" := PInt (total_tokens (usage response)) ]} ]})) ∧
  (hashable v = false →
     handle_analyze data w =
       (Ok (PDict {[ "success" := PBool false;
                     "error" := PStr ("unhashable type: '" +:+ type_name v +:+ "'") ]}),
        w)).
Proof.
  intros [_ Henum] Htype Hv. split; [|split; [|split]].
  - destruct listed_tool_analyze as (tool & Htool & Hin & _ & Hallowed).
    destruct (Henum tool data "analysis_type" v _ Hin Htype Hallowed (outside_enum v Hv))
      as [msg Hmsg].
    exists msg. by apply registered_call_tool_rejected with tool.
  - intros Hh.
    pose proof (subscript_outside (dict_get data "text" PNone) v Hh Hv) as Hsub.
    split; [exact Hsub|].
    rewrite call_tool_analyze_run, (dict_get_Some _ _ _ _ Htype). by rewrite Hsub.
  - intros Hh req. subst req.
    erewrite handle_analyze_run.
    2: { rewrite (dict_get_Some _ _ _ _ Htype). by apply get_or_outside. }
    split; [done|].
    intros response choice rest Hcreate Hchoices. cbn [fst].
    unfold analyze_request. rewrite Hcreate, Hchoices.
    by rewrite (dict_get_Some _ _ _ _ Htype).
  - intros Hh. rewrite (handle_analyze_lookup_fault _ _ (TypeError_unhashable v)); [done|].
    rewrite (dict_get_Some _ _ _ _ Htype). by destruct v.
Qed.

(** The analysis relays read [text] and [analysis_type] and nothing else. *)
Lemma dict_get_insert_ne d k key v dflt :
  k ≠ key → dict_get (<[k := v]> d) key dflt = dict_get d key dflt.
Proof. intros Hne. unfold dict_get. by rewrite lookup_insert_ne. Qed.

Lemma analyze_calls_http data w :
  ∃ new,
    calls (snd (handle_analyze data w)) = calls w ++ new ∧
    (length new ≤ 1)%nat ∧
    Forall fixed_model_and_cap new ∧
    (hashable (dict_get data "analysis_type" (PStr "summary")) = true →
     length new = 1%nat).
Proof.
  destruct (get_or (prompts (dict_get data "text" (PStr "")))
              (dict_get data "analysis_type" (PStr "summary"))
              ("Provide a concise summary of this text:" +:+ LF +:+ LF +:+
               py_str (dict_get data "text" (PStr "")))) as [prompt|e] eqn:Hget.
  - rewrite (handle_analyze_run _ _ _ Hget).
    exists [analyze_request prompt].
    split; [done|]. split; [cbn; lia|]. split; [|done].
    by repeat constructor.
  - rewrite (handle_analyze_lookup_fault _ _ _ Hget).
    exists []. cbn [snd]. rewrite app_nil_r.
    split; [done|]. split; [cbn; lia|]. split; [constructor|].
    intros Hh. apply get_or_fault in Hget as [Hno _]. congruence.
Qed.

Lemma analyze_calls_stdio arguments w :
  ∃ new,
    calls (snd (call_tool "analyze_text" arguments w)) = calls w ++ new ∧
    (length new ≤ 1)%nat ∧
    Forall fixed_model_and_cap new ∧
    (∀ t, arguments !! "analysis_type" = Some (PStr t) → defined_type t →
     length new = 1%nat).
Proof.
  rewrite call_tool_analyze_run.
  destruct (subscript _ _) as [p|e] eqn:Hsub.
  - exists [analyze_request p].
    split; [done|]. split; [cbn; lia|]. split; [|done].
    by repeat constructor.
  - exists []. cbn [snd]. rewrite app_nil_r.
    split; [done|]. split; [cbn; lia|]. split; [constructor|].
    intros t Htype Ht. apply spec_instruction_defined in Ht as [i Hi].
    rewrite (dict_get_Some _ _ _ _ Htype) in Hsub.
    by rewrite (subscript_defined _ _ _ Hi) in Hsub.
Qed.

Lemma analyze_type_tag data w body :
  fst (handle_analyze data w) = Ok (PDict body) →
  body !! "success" = Some (PBool true) →
  body !! "type" = Some (dict_get data "analysis_type" (PStr "summary")).
Proof.
  destruct (get_or (prompts (dict_get data "text" (PStr "")))
              (dict_get data "analysis_type" (PStr "summary"))
              ("Provide a concise summary of this text:" +:+ LF +:+ LF +:+
               py_str (dict_get data "text" (PStr "")))) as [prompt|e] eqn:Hget.
  - rewrite (handle_analyze_run _ _ _ Hget). cbn [fst].
    destruct (create _) as [response|e]; [destruct (choices response)|];
      intros; by simplify_map_eq.
  - rewrite (handle_analyze_lookup_fault _ _ _ Hget). cbn [fst].
    intros; by simplify_map_eq.
Qed.

Lemma call_tool_returns tool_name arguments w :
  ∃ items w', call_tool tool_name arguments w = (Ok items, w').
Proof.
  destruct (decide (tool_name = "chat_with_gpt")) as [-> | Hchat].
  { rewrite call_tool_chat_run. eauto. }
  destruct (decide (tool_name = "analyze_text")) as [-> | Hanalyze].
  { rewrite call_tool_analyze_run. destruct (subscript _ _); eauto. }
  unfold call_tool. rewrite !bool_decide_eq_false_2 by done. eauto.
Qed.

(** Through the registered handler the history is either untouched or the
    one that the function leaves. *)
Lemma registered_call_tool_world validate tool_name arguments w :
  snd (registered_call_tool validate tool_name arguments w) = w ∨
  snd (registered_call_tool validate tool_name arguments w)
  = snd (call_tool tool_name arguments w).
Proof.
  destruct (call_tool_returns tool_name arguments w) as (items & w' & Hrun).
  unfold registered_call_tool. step.
  destruct (listed_tool tool_name) as [tool|].
  - destruct (validate _ _); [by left|]. right. by rewrite Hrun.
  - right. by rewrite Hrun.
Qed.

(** C7, as amended.  Every provider call made for an analysis request, on
    either surface (for the stdio surface: by [call_tool], and through the
    registered handler, whatever the validator), has the model "gpt-4o" and
    the cap of 1000 tokens, there is at most one, and a [model] entry of the
    request changes nothing.  When the [analysis_type] is one of the four
    defined kinds (or, on the HTTP surface, absent, which is the kind
    "summary"), [handle_analyze] and [call_tool] invoke the provider
    exactly once, with the single user message made of the instruction of
    that kind, two line feeds and the text, and a success response of the
    HTTP surface is tagged with that kind.  For any other value
    [call_tool] does not invoke the provider; the HTTP surface, when the
    value is hashable, invokes it with the summary message and tags a
    success response with the client's value, which is not the kind that
    was used. *)
Theorem analysis_call_and_tag data w :
  (∃ new,
     calls (snd (handle_analyze data w)) = calls w ++ new ∧
     (length new ≤ 1)%nat ∧
     Forall (λ req, model req = PStr "gpt-4o" ∧ max_tokens req = 1000) new) ∧
  (∃ new,
     calls (snd (call_tool "analyze_text" data w)) = calls w ++ new ∧
     (length new ≤ 1)%nat ∧
     Forall (λ req, model req = PStr "gpt-4o" ∧ max_tokens req = 1000) new) ∧
  (∀ validate, ∃ new,
     calls (snd (registered_call_tool validate "analyze_text" data w)) = calls w ++ new ∧
     (length new ≤ 1)%nat ∧
     Forall (λ req, model req = PStr "gpt-4o" ∧ max_tokens req = 1000) new) ∧
  (∀ m, handle_analyze (<["model" := m]> data) w = handle_analyze data w) ∧
  (∀ m, call_tool "analyze_text" (<["model" := m]> data) w
        = call_tool "analyze_text" data w) ∧
  (∀ t instruction,
     dict_get data "analysis_type" (PStr "summary") = PStr t →
     spec_instruction t = Some instruction →
     let req :=
       {| model := PStr "gpt-4o";
          messages :=
            [Message "user"
               (PStr (instruction +:+ LF +:+ LF +:+
                      py_str (dict_get data "text" (PStr ""))))];
          max_tokens := 1000 |} in
     snd (handle_analyze data w) = World (calls w ++ [req]) (wire w) ∧
     ∀ response choice rest,
       create req = Ok response →
       choices response = choice :: rest →
       fst (handle_analyze data w) =
         Ok (PDict {[ "success" := PBool true;
                      "analysis" := PStr choice;
                      "type" := PStr t;
                      "usage" := PDict {[
                        "prompt_tokens" := PInt (prompt_tokens (usage response));
                        "completion_tokens" := PInt (completion_tokens (usage response));
                        "total_tokens" := PInt (total_tokens (usage response)) ]} ]})) ∧
  (∀ t instruction,
     data !! "analysis_type" = Some (PStr t) →
     spec_instruction t = Some instruction →
     snd (call_tool "analyze_text" data w) =
       World (calls w ++
                [ {| model := PStr "gpt-4o";
                     messages :=
                       [Message "user"
                          (PStr (instruction +:+ LF +:+ LF +:+
                                 py_str (dict_get data "text" PNone)))];
                     max_tokens := 1000 |} ])
             (wire w)) ∧
  (∀ v,
     data !! "analysis_type" = Some v →
     (∀ s, v = PStr s → ¬ defined_type s) →
     snd (call_tool "analyze_text" data w) = w ∧
     (hashable v = true →
        snd (handle_analyze data w) =
          World (calls w ++
                   [ {| model := PStr "gpt-4o";
                        messages :=
                          [Message "user"
                             (PStr ("Provide a concise summary of this text:"
                                    +:+ LF +:+ LF +:+
                                    py_str (dict_get data "text" (PStr ""))))];
                        max_tokens := 1000 |} ])
                (wire w) ∧
        ∀ body,
          fst (handle_analyze data w) = Ok (PDict body) →
          body !! "success" = Some (PBool true) →
          body !! "type" = Some v ∧ v ≠ PStr "summary")).
Proof.
  split; [|split; [|split; [|split; [|split; [|split; [|split]]]]]].
  - destruct (analyze_calls_http data w) as (new & ? & ? & ? & _). by exists new.
  - destruct (analyze_calls_stdio data w) as (new & ? & ? & ? & _). by exists new.
  - intros validate.
    destruct (registered_call_tool_world validate "analyze_text" data w) as [-> | ->].
    + exists []. rewrite app_nil_r. split; [done|]. split; [cbn; lia|constructor].
    + destruct (analyze_calls_stdio data w) as (new & ? & ? & ? & _). by exists new.
  - intros m. unfold handle_analyze. by rewrite !dict_get_insert_ne.
  - intros m. rewrite !call_tool_analyze_run. by rewrite !dict_get_insert_ne.
  - intros t instruction Htype Ht req. subst req.
    erewrite handle_analyze_run.
    2: { rewrite Htype. exact (get_or_defined _ _ _ _ Ht). }
    split; [done|].
    intros response choice rest Hcreate Hchoices. cbn [fst].
    unfold analyze_request. by rewrite Hcreate, Hchoices, Htype.
  - intros t instruction Htype Ht.
    rewrite call_tool_analyze_run, (dict_get_Some _ _ _ _ Htype).
    by rewrite (subscript_defined _ _ _ Ht).
  - intros v Htype Hv. split.
    + rewrite call_tool_analyze_run, (dict_get_Some _ _ _ _ Htype).
      destruct (hashable v) eqn:Hh.
      * by rewrite (subscript_outside _ v Hh Hv).
      * by destruct v.
    + intros Hh. split.
      * erewrite handle_analyze_run; [done|].
        rewrite (dict_get_Some _ _ _ _ Htype). by apply get_or_outside.
      * intros body Hrun Hsuccess. split.
        -- pose proof (analyze_type_tag data w body Hrun Hsuccess) as Htag.
           by rewrite (dict_get_Some _ _ _ _ Htype) in Htag.
        -- intros ->. apply (Hv "summary"); [done|]. unfold defined_type. tauto.
Qed.

(** C9, as amended.  Every GET is answered with status 200 and a JSON
    object whose [status] is "online" and whose [endpoints.actions] is the
    list of the three actions "chat", "analyze" and "list_tools". *)
Theorem get_status_document w :
  ∃ document endpoints,
    do_GET w = (Ok tt, answered 200 (PDict document) w) ∧
    document !! "status" = Some (PStr "online") ∧
    document !! "endpoints" = Some (PDict endpoints) ∧
    endpoints !! "actions" =
      Some (PList [PStr "chat"; PStr "analyze"; PStr "list_tools"]).
Proof.
  do 2 eexists. split; [|split; [|split]].
  - unfold do_GET. fold (send_json 200 status_document).
    rewrite send_json_answered. reflexivity.
  - by simplify_map_eq.
  - by simplify_map_eq.
  - by simplify_map_eq.
Qed.

(** C10.  When an HTTP analysis request whose [analysis_type] is outside
    the four defined kinds succeeds, the response carries the value the
    client sent under [type], while the one call made to the provider
    carried a single user message, the instruction of the summary kind
    followed by the text; the client's value is not "summary", so the tag
    and the template used disagree. *)
Theorem unknown_type_tag_and_template data v body w w' :
  data !! "analysis_type" = Some v →
  (∀ s, v = PStr s → ¬ defined_type s) →
  handle_analyze data w = (Ok (PDict body), w') →
  body !! "success" = Some (PBool true) →
  body !! "type" = Some v ∧
  v ≠ PStr "summary" ∧
  w' = World (calls w ++
                [ {| model := PStr "gpt-4o";
                     messages :=
                       [Message "user"
                          (PStr ("Provide a concise summary of this text:"
                                 +:+ LF +:+ LF +:+
                                 py_str (dict_get data "text" (PStr ""))))];
                     max_tokens := 1000 |} ])
             (wire w).
Proof.
  intros Htype Hv Hrun Hsuccess.
  assert (Hne : v ≠ PStr "summary").
  { intros ->. apply (Hv "summary"); [done|]. unfold defined_type. tauto. }
  pose proof (analyze_type_tag data w body) as Htag.
  rewrite Hrun, (dict_get_Some _ _ _ _ Htype) in Htag.
  split; [by apply Htag|]. split; [done|].
  destruct (get_or (prompts (dict_get data "text" (PStr "")))
              (dict_get data "analysis_type" (PStr "summary"))
              ("Provide a concise summary of this text:" +:+ LF +:+ LF +:+
               py_str (dict_get data "text" (PStr "")))) as [prompt|e] eqn:Hget.
  - rewrite (handle_analyze_run _ _ _ Hget) in Hrun.
    assert (prompt = "Provide a concise summary of this text:" +:+ LF +:+ LF +:+
                     py_str (dict_get data "text" (PStr ""))) as ->;
      [|by injection Hrun as _ <-].
    rewrite (dict_get_Some _ _ _ _ Htype) in Hget.
    destruct v as [ | b | z | literal | s | l | d ]; cbn in Hget; try congruence.
    rewrite (prompts_undefined _ s) in Hget by (by apply Hv). cbn in Hget. congruence.
  - rewrite (handle_analyze_lookup_fault _ _ _ Hget) in Hrun.
    simplify_eq.
Qed.

(** ** Further properties of the two surfaces *)

Lemma called_neq req w : called req w ≠ w.
Proof.
  destruct w as [cs ws]. unfold called. cbn. intros [= Hcalls].
  apply (f_equal length) in Hcalls. rewrite length_app in Hcalls. cbn in Hcalls. lia.
Qed.

(** A relay of the HTTP surface leaves the wire alone and calls the
    provider at most once. *)
Lemma handle_chat_world data w :
  ∃ response, handle_chat data w = (Ok response, called (http_chat_request data) w).
Proof. rewrite handle_chat_run. eauto. Qed.

Lemma handle_analyze_world data w :
  ∃ response w',
    handle_analyze data w = (Ok response, w') ∧
    (w' = w ∨ ∃ prompt, w' = called (analyze_request prompt) w).
Proof.
  destruct (get_or (prompts (dict_get data "text" (PStr "")))
              (dict_get data "analysis_type" (PStr "summary"))
              ("Provide a concise summary of this text:" +:+ LF +:+ LF +:+
               py_str (dict_get data "text" (PStr "")))) as [prompt|e] eqn:Hget.
  - rewrite (handle_analyze_run _ _ _ Hget). eauto 6.
  - rewrite (handle_analyze_lookup_fault _ _ _ Hget). eauto.
Qed.

(** Every run of the router: one JSON answer, after at most one provider
    call, which only the actions "chat" and "analyze" can make. *)
Lemma do_POST_answer post_data w :
  ∃ code response new,
    do_POST post_data w =
      (Ok tt, answered code response (World (calls w ++ new) (wire w))) ∧
    (length new ≤ 1)%nat ∧
    (new ≠ [] →
     ∃ data, json_loads post_data = Ok (PDict data) ∧
             (dict_get data "action" PNone = PStr "chat" ∨
              dict_get data "action" PNone = PStr "analyze")).
Proof.
  assert (Hsame : ∀ code response,
            answered code response w
            = answered code response (World (calls w ++ []) (wire w))).
  { intros. rewrite app_nil_r. by destruct w. }
  destruct (json_loads post_data) as [v|e] eqn:Hloads.
  - destruct v as [ | b | z | literal | s | l | data ].
    7: {
      rewrite (do_POST_dict _ _ _ Hloads).
      destruct (py_eq_str _ "chat") eqn:Hchat;
        [|destruct (py_eq_str _ "analyze") eqn:Hanalyze;
          [|destruct (py_eq_str _ "list_tools")]].
      - apply py_eq_str_spec in Hchat.
        destruct (handle_chat_world data w) as (response & ->).
        exists 200, response, [http_chat_request data].
        split; [done|]. split; [cbn; lia|]. eauto.
      - apply py_eq_str_spec in Hanalyze.
        destruct (handle_analyze_world data w) as (response & w' & -> & [-> | [prompt ->]]).
        + exists 200, response, []. rewrite <- Hsame. split; [done|]. split; [cbn; lia|done].
        + exists 200, response, [analyze_request prompt].
          split; [done|]. split; [cbn; lia|]. eauto.
      - exists 200, (PDict {[
          "success" := PBool true;
          "tools" := PList [
            PDict {[ "name" := PStr "chat";
                     "description" := PStr "Chat with ChatGPT";
                     "parameters" := PList [
                       PStr "message";
                       PStr "system_prompt (optional)";
                       PStr "model (optional: gpt-4o, gpt-4o-mini, gpt-4-turbo)" ] ]};
            PDict {[ "name" := PStr "analyze";
                     "description" := PStr "Analyze text";
                     "parameters" := PList [
                       PStr "text";
                       PStr "analysis_type (sentiment|themes|summary|key_points)" ] ]} ] ]}), [].
        rewrite <- Hsame. split; [done|]. split; [cbn; lia|done].
      - exists 200, unknown_action, []. rewrite <- Hsame. split; [done|]. split; [cbn; lia|done].
    }
    all: unfold do_POST; step; rewrite Hloads; cbn [getattr_get];
      rewrite send_json_answered; do 2 eexists; exists [];
      rewrite <- Hsame; (split; [done|]); split; [cbn; lia|done].
  - unfold do_POST. step. rewrite Hloads, send_json_answered.
    do 2 eexists. exists []. rewrite <- Hsame. split; [done|]. split; [cbn; lia|done].
Qed.

(** X1.  Whatever the tool name and the arguments, a tool call returns
    normally, with exactly one content item, of type "text"; it writes
    nothing to the HTTP wire and calls the provider at most once. *)
Theorem call_tool_one_text_item tool_name arguments w :
  ∃ shown_text new,
    call_tool tool_name arguments w =
      (Ok [MkTextContent "text" shown_text], World (calls w ++ new) (wire w)) ∧
    (length new ≤ 1)%nat.
Proof.
  assert (Hsame : w = World (calls w ++ []) (wire w)).
  { rewrite app_nil_r. by destruct w. }
  destruct (decide (tool_name = "chat_with_gpt")) as [-> | Hchat].
  { rewrite call_tool_chat_run. do 2 eexists. split; [reflexivity|]. cbn. lia. }
  destruct (decide (tool_name = "analyze_text")) as [-> | Hanalyze].
  { rewrite call_tool_analyze_run.
    destruct (subscript _ _) as [prompt|e].
    - do 2 eexists. split; [reflexivity|]. cbn. lia.
    - eexists. exists []. rewrite <- Hsame. split; [reflexivity|]. cbn. lia. }
  unfold call_tool. rewrite !bool_decide_eq_false_2 by done.
  eexists. exists []. rewrite <- Hsame. split; [reflexivity|]. cbn. lia.
Qed.

(** X2.  One POST leads to at most one provider call, and to none unless
    the body is a JSON object whose action is "chat" or "analyze"; GET and
    OPTIONS never call the provider. *)
Theorem http_calls_provider_at_most_once post_data w :
  (∃ new,
     calls (snd (do_POST post_data w)) = calls w ++ new ∧
     (length new ≤ 1)%nat ∧
     (new ≠ [] →
      ∃ data, json_loads post_data = Ok (PDict data) ∧
              (dict_get data "action" PNone = PStr "chat" ∨
               dict_get data "action" PNone = PStr "analyze"))) ∧
  calls (snd (do_GET w)) = calls w ∧
  calls (snd (do_OPTIONS w)) = calls w.
Proof.
  split; [|done].
  destruct (do_POST_answer post_data w) as (code & response & new & -> & Hlen & Hnew).
  by exists new.
Qed.

(** X3.  Whatever is posted, the POST answer is one status line, header
    lines that include "Access-Control-Allow-Origin: *", the end of the
    headers and exactly one JSON body; so is the GET answer, with status
    200; the OPTIONS answer is the same with status 200 and no body. *)
Theorem http_answers_are_framed post_data w :
  (∃ events code response,
     wire (snd (do_POST post_data w)) = wire w ++ events ∧
     framed events code [json_dumps response]) ∧
  (∃ events,
     wire (snd (do_GET w)) = wire w ++ events ∧
     framed events 200 [json_dumps status_document]) ∧
  (∃ events,
     wire (snd (do_OPTIONS w)) = wire w ++ events ∧
     framed events 200 []).
Proof.
  clear int_str. split; [|split].
  - destruct (do_POST_answer post_data w) as (code & response & new & -> & _).
    eexists. exists code, response. split; [reflexivity|].
    exists [Header "Content-type" "application/json";
            Header "Access-Control-Allow-Origin" "*"].
    split; [done|]. split.
    + repeat constructor; unfold is_header; eauto.
    + set_solver.
  - unfold do_GET. fold (send_json 200 status_document).
    rewrite send_json_answered. eexists. split; [reflexivity|].
    exists [Header "Content-type" "application/json";
            Header "Access-Control-Allow-Origin" "*"].
    split; [done|]. split.
    + repeat constructor; unfold is_header; eauto.
    + set_solver.
  - eexists. split.
    + unfold do_OPTIONS, send_response, send_header, end_headers, emit. step. cbn.
      rewrite <- !app_assoc. reflexivity.
    + exists [Header "Access-Control-Allow-Origin" "*";
              Header "Access-Control-Allow-Methods" "POST, OPTIONS";
              Header "Access-Control-Allow-Headers" "Content-Type"].
      split; [done|]. split.
      * repeat constructor; unfold is_header; eauto.
      * set_solver.
Qed.


(** X5.  When the provider answers without any choice, indexing the empty
    list raises inside the [try] statement and the fault is reported like a
    provider fault, with the message "list index out of range": as the
    failure variant on the HTTP surface, as error text on the stdio
    surface, for the chat and for the analysis alike.  The provider call
    has been made. *)
Theorem empty_choices_reported response :
  choices response = [] →
  (∀ data w,
     create (http_chat_request data) = Ok response →
     handle_chat data w =
       (Ok (PDict {[ "success" := PBool false;
                     "error" := PStr "list index out of range" ]}),
        called (http_chat_request data) w)) ∧
  (∀ arguments w,
     create (stdio_chat_request arguments) = Ok response →
     call_tool "chat_with_gpt" arguments w =
       (Ok [MkTextContent "text" "Error calling ChatGPT: list index out of range"],
        called (stdio_chat_request arguments) w)) ∧
  (∀ data t instruction w,
     data !! "analysis_type" = Some (PStr t) →
     spec_instruction t = Some instruction →
     let req := analyze_request
                  (instruction +:+ LF +:+ LF +:+ py_str (dict_get data "text" (PStr ""))) in
     create req = Ok response →
     handle_analyze data w =
       (Ok (PDict {[ "success" := PBool false;
                     "error" := PStr "list index out of range" ]}),
        called req w)) ∧
  (∀ arguments t instruction w,
     arguments !! "analysis_type" = Some (PStr t) →
     spec_instruction t = Some instruction →
     let req := analyze_request
                  (instruction +:+ LF +:+ LF +:+ py_str (dict_get arguments "text" PNone)) in
     create req = Ok response →
     call_tool "analyze_text" arguments w =
       (Ok [MkTextContent "text" "Error analyzing text: list index out of range"],
        called req w)).
Proof.
  intros Hchoices. split; [|split; [|split]].
  - intros data w Hcreate. by rewrite handle_chat_run, Hcreate, Hchoices.
  - intros arguments w Hcreate. by rewrite call_tool_chat_run, Hcreate, Hchoices.
  - intros data t instruction w Htype Ht req Hcreate. subst req.
    erewrite handle_analyze_run.
    2: { rewrite (dict_get_Some _ _ _ _ Htype). exact (get_or_defined _ _ _ _ Ht). }
    by rewrite Hcreate, Hchoices.
  - intros arguments t instruction w Htype Ht req Hcreate. subst req.
    rewrite call_tool_analyze_run, (dict_get_Some _ _ _ _ Htype).
    rewrite (subscript_defined _ _ _ Ht). by rewrite Hcreate, Hchoices.
Qed.

(** X6.  A provider fault during an analysis is caught like a fault during
    a chat.  For a defined kind, when the provider raises [e], the HTTP
    surface returns the failure variant with [str(e)] and the stdio surface
    returns the text "Error analyzing text: " followed by [str(e)]; the
    call that raised is the only one made. *)
Theorem analysis_provider_fault_reported e t instruction :
  spec_instruction t = Some instruction →
  (∀ data w,
     data !! "analysis_type" = Some (PStr t) →
     let req := analyze_request
                  (instruction +:+ LF +:+ LF +:+ py_str (dict_get data "text" (PStr ""))) in
     create req = Fault e →
     handle_analyze data w =
       (Ok (PDict {[ "success" := PBool false; "error" := PStr (str_exn e) ]}),
        called req w)) ∧
  (∀ arguments w,
     arguments !! "analysis_type" = Some (PStr t) →
     let req := analyze_request
                  (instruction +:+ LF +:+ LF +:+ py_str (dict_get arguments "text" PNone)) in
     create req = Fault e →
     call_tool "analyze_text" arguments w =
       (Ok [MkTextContent "text" ("Error analyzing text: " +:+ str_exn e)],
        called req w)).
Proof.
  intros Ht. split.
  - intros data w Htype req Hcreate. subst req.
    erewrite handle_analyze_run.
    2: { rewrite (dict_get_Some _ _ _ _ Htype). exact (get_or_defined _ _ _ _ Ht). }
    by rewrite Hcreate.
  - intros arguments w Htype req Hcreate. subst req.
    rewrite call_tool_analyze_run, (dict_get_Some _ _ _ _ Htype).
    rewrite (subscript_defined _ _ _ Ht). by rewrite Hcreate.
Qed.


(** X8.  For an analysis request with a defined kind and a [text], the two
    surfaces do the same thing: the same request goes to the provider, and
    the text the stdio surface returns is what the HTTP response holds, the
    generated text under [analysis], or the error message behind "Error
    analyzing text: ". *)
Theorem analyze_surfaces_agree data t txt w :
  defined_type t →
  data !! "analysis_type" = Some (PStr t) →
  data !! "text" = Some txt →
  ∃ response shown_text w',
    handle_analyze data w = (Ok response, w') ∧
    call_tool "analyze_text" data w = (Ok [MkTextContent "text" shown_text], w') ∧
    shown "Error analyzing text: " "analysis" response = Some shown_text.
Proof.
  intros Ht Htype Htext. apply spec_instruction_defined in Ht as [instruction Ht].
  rewrite call_tool_analyze_run.
  erewrite handle_analyze_run.
  2: { rewrite (dict_get_Some _ _ _ _ Htype). exact (get_or_defined _ _ _ _ Ht). }
  rewrite !(dict_get_Some _ _ _ _ Htype), !(dict_get_Some _ _ _ _ Htext).
  rewrite (subscript_defined _ _ _ Ht).
  destruct (create _) as [response|e]; [destruct (choices response)|];
    do 3 eexists; (split; [reflexivity|]); (split; [reflexivity|]);
    unfold shown, entry, failure, analyze_success; by simplify_map_eq.
Qed.

Lemma dict_get_insert_default d key dflt :
  d !! key = None → dict_get (<[key := dflt]> d) key dflt = dict_get d key dflt.
Proof. intros Hnone. unfold dict_get. by rewrite lookup_insert_eq, Hnone. Qed.

(** X10.  On the HTTP surface a parameter that is absent behaves exactly
    like the parameter set to its default: [message] to [''],
    [system_prompt] to "You are a helpful AI assistant.", [model] to
    "gpt-4o", [text] to [''] and [analysis_type] to "summary".  The same
    holds on the stdio surface for [system_prompt] and [model]. *)
Theorem absent_parameter_is_default data w :
  (data !! "message" = None →
     handle_chat (<["message" := PStr ""]> data) w = handle_chat data w) ∧
  (data !! "system_prompt" = None →
     handle_chat (<["system_prompt" := PStr "You are a helpful AI assistant."]> data) w
     = handle_chat data w) ∧
  (data !! "model" = None →
     handle_chat (<["model" := PStr "gpt-4o"]> data) w = handle_chat data w) ∧
  (data !! "text" = None →
     handle_analyze (<["text" := PStr ""]> data) w = handle_analyze data w) ∧
  (data !! "analysis_type" = None →
     handle_analyze (<["analysis_type" := PStr "summary"]> data) w
     = handle_analyze data w) ∧
  (data !! "system_prompt" = None →
     call_tool "chat_with_gpt"
       (<["system_prompt" := PStr "You are a helpful AI assistant."]> data) w
     = call_tool "chat_with_gpt" data w) ∧
  (data !! "model" = None →
     call_tool "chat_with_gpt" (<["model" := PStr "gpt-4o"]> data) w
     = call_tool "chat_with_gpt" data w).
Proof.
  repeat split; intros Hnone.
  1-3: unfold handle_chat;
    by rewrite (dict_get_insert_default _ _ _ Hnone), !dict_get_insert_ne.
  1-2: unfold handle_analyze;
    by rewrite (dict_get_insert_default _ _ _ Hnone), !dict_get_insert_ne.
  all: rewrite !call_tool_chat_run; unfold stdio_chat_request;
    by rewrite (dict_get_insert_default _ _ _ Hnone), !dict_get_insert_ne.
Qed.

(** X11.  An entry that a relay does not read changes nothing: the chat
    relay of either surface reads [message], [system_prompt] and [model]
    only, the analysis relay of either surface [text] and [analysis_type]
    only. *)
Theorem unread_entries_are_ignored key v data w :
  (key ≠ "message" → key ≠ "system_prompt" → key ≠ "model" →
     handle_chat (<[key := v]> data) w = handle_chat data w ∧
     call_tool "chat_with_gpt" (<[key := v]> data) w = call_tool "chat_with_gpt" data w) ∧
  (key ≠ "text" → key ≠ "analysis_type" →
     handle_analyze (<[key := v]> data) w = handle_analyze data w ∧
     call_tool "analyze_text" (<[key := v]> data) w = call_tool "analyze_text" data w).
Proof.
  split.
  - intros Hmessage Hsystem Hmodel. split.
    + unfold handle_chat. by rewrite !dict_get_insert_ne.
    + rewrite !call_tool_chat_run. unfold stdio_chat_request.
      by rewrite !dict_get_insert_ne.
  - intros Htext Htype. split.
    + unfold handle_analyze. by rewrite !dict_get_insert_ne.
    + rewrite !call_tool_analyze_run. by rewrite !dict_get_insert_ne.
Qed.

Lemma list_tools_names tool_name :
  tool_name ∈ name <$> list_tools ↔
  tool_name = "chat_with_gpt" ∨ tool_name = "analyze_text".
Proof. clear. cbn. rewrite !elem_of_cons, elem_of_nil. tauto. Qed.

(** X12.  The tool list and the tool call agree on the names: a call is
    answered with "Unknown tool: <name>", nothing having been called,
    exactly when the name is not the name of a listed tool. *)
Theorem listed_tools_are_handled tool_name arguments w :
  tool_name ∈ name <$> list_tools ↔
  call_tool tool_name arguments w ≠
    (Ok [MkTextContent "text" ("Unknown tool: " +:+ tool_name)], w).
Proof.
  rewrite list_tools_names. split.
  - intros [-> | ->].
    + rewrite call_tool_chat_run. intros [= _ Hw]. by apply called_neq in Hw.
    + rewrite call_tool_analyze_run.
      destruct (subscript _ _) as [prompt|e].
      * intros [= _ Hw]. by apply called_neq in Hw.
      * intros Heq. by simplify_eq/=.
  - intros Hne.
    destruct (decide (tool_name = "chat_with_gpt")) as [-> | Hchat]; [by left|].
    destruct (decide (tool_name = "analyze_text")) as [-> | Hanalyze]; [by right|].
    destruct Hne. unfold call_tool. by rewrite !bool_decide_eq_false_2.
Qed.

(** X13.  Arguments that keep to the input schema of a listed tool (every
    required key present, every value with an [enum] among its values)
    always reach the provider: the call of that tool makes exactly one
    provider call, with the cap of 1000 tokens, and the lookup fault of
    the analysis cannot occur. *)
Theorem conforming_call_reaches_provider tool arguments w :
  tool ∈ list_tools →
  conforms (inputSchema tool) arguments →
  ∃ req,
    snd (call_tool (name tool) arguments w) = called req w ∧
    max_tokens req = 1000.
Proof.
  clear int_str json_loads.
  intros Htool [Hrequired Henum].
  unfold list_tools in Htool.
  apply elem_of_cons in Htool as [-> | Htool].
  { cbn [name]. rewrite call_tool_chat_run. by eexists. }
  apply elem_of_cons in Htool as [-> | Htool]; [|by apply elem_of_nil in Htool].
  cbn [name inputSchema] in *.
  destruct (Hrequired "analysis_type") as [v Hv].
  { replace (required_of _) with [PStr "text"; PStr "analysis_type"] by reflexivity.
    rewrite !elem_of_cons. tauto. }
  specialize (Henum "analysis_type" v
                [PStr "sentiment"; PStr "themes"; PStr "summary"; PStr "key_points"]
                Hv eq_refl).
  assert (∃ t instruction, v = PStr t ∧ spec_instruction t = Some instruction)
    as (t & instruction & -> & Ht).
  { rewrite !elem_of_cons, elem_of_nil in Henum.
    destruct Henum as [-> | [-> | [-> | [-> | []]]]]; by do 2 eexists. }
  rewrite call_tool_analyze_run, (dict_get_Some _ _ _ _ Hv).
  rewrite (subscript_defined _ _ _ Ht). by eexists.
Qed.

Lemma listed_actions_are : 
  listed_actions = [PStr "chat"; PStr "analyze"; PStr "list_tools"].
Proof. reflexivity. Qed.

Lemma answered_inj code response response' w w' :
  answered code response w = answered code response' w' → response = response'.
Proof.
  unfold answered. intros [= _ Hwire].
  apply app_inj_2 in Hwire as [_ Hlast]; [|done]. by simplify_eq.
Qed.

(** X14.  The status document and the router agree on the actions: for a
    body that decodes to a JSON object, the POST is answered with "Unknown
    action" exactly when its action is not one of the actions that the GET
    document lists. *)
Theorem listed_actions_are_routed post_data data w :
  json_loads post_data = Ok (PDict data) →
  dict_get data "action" PNone ∈ listed_actions ↔
  do_POST post_data w ≠
    (Ok tt, answered 200 (PDict {[ "error" := PStr "Unknown action" ]}) w).
Proof.
  clear int_str.
  intros Hloads. rewrite listed_actions_are, (do_POST_dict _ _ _ Hloads).
  rewrite !elem_of_cons, elem_of_nil. split.
  - intros [-> | [-> | [-> | []]]].
    + rewrite py_eq_str_true.
      destruct (handle_chat_success_field data w) as (body & b & w' & -> & Hb).
      intros Heq. apply (f_equal snd) in Heq. cbn [snd] in Heq.
      apply answered_inj in Heq. by simplify_map_eq.
    + rewrite py_eq_str_false, py_eq_str_true by done.
      destruct (handle_analyze_success_field data w) as (body & b & w' & -> & Hb).
      intros Heq. apply (f_equal snd) in Heq. cbn [snd] in Heq.
      apply answered_inj in Heq. by simplify_map_eq.
    + rewrite !py_eq_str_false, py_eq_str_true by done.
      destruct (handle_list_tools_success_field w) as (body & -> & Hb).
      intros Heq. apply (f_equal snd) in Heq. cbn [snd] in Heq.
      apply answered_inj in Heq. by simplify_map_eq.
  - intros Hne.
    destruct (py_eq_str _ "chat") eqn:Hchat;
      [apply py_eq_str_spec in Hchat; tauto|].
    destruct (py_eq_str _ "analyze") eqn:Hanalyze;
      [apply py_eq_str_spec in Hanalyze; tauto|].
    destruct (py_eq_str _ "list_tools") eqn:Hlist;
      [apply py_eq_str_spec in Hlist; tauto|].
    by destruct Hne.
Qed.



(** X15.  The two lines of [do_POST] that read the body are outside its
    [try] statement.  A request without [Content-Length] makes [int(None)]
    raise [TypeError], and a header that [int] rejects raises its fault:
    in both cases the fault leaves [do_POST], nothing is written to the
    wire, not even a status line, and the provider is not called. *)
Theorem post_header_fault_escapes rfile w :
  (∃ e, exn_class e = "TypeError" ∧
        do_POST_from_request None rfile w = (Fault e, w)) ∧
  (∀ s e, int_str s = Fault e →
          do_POST_from_request (Some s) rfile w = (Fault e, w)).
Proof.
  split.
  - exists TypeError_int_None. split; reflexivity.
  - intros s e Hint. unfold do_POST_from_request. step. cbn [py_int].
    by rewrite Hint.
Qed.


(** X17.  The defaults that the input schema of the chat tool declares,
    against the defaults of the tool call.  For [model] they agree: leaving
    it out is the same as sending the declared default.  For
    [system_prompt] they differ: the schema declares [''], while a call
    without it sends "You are a helpful AI assistant." as system message,
    so sending the declared default leads to a different provider call. *)
Theorem declared_defaults_and_used_defaults tool arguments w :
  tool ∈ list_tools →
  name tool = "chat_with_gpt" →
  (∃ declared,
     default_of (inputSchema tool) "model" = Some declared ∧
     (arguments !! "model" = None →
        call_tool "chat_with_gpt" (<["model" := declared]> arguments) w
        = call_tool "chat_with_gpt" arguments w)) ∧
  (∃ declared,
     default_of (inputSchema tool) "system_prompt" = Some declared ∧
     (arguments !! "system_prompt" = None →
        snd (call_tool "chat_with_gpt" (<["system_prompt" := declared]> arguments) w)
        ≠ snd (call_tool "chat_with_gpt" arguments w))).
Proof.
  clear int_str json_loads.
  intros Htool Hname. unfold list_tools in Htool.
  apply elem_of_cons in Htool as [-> | Htool].
  2: { apply elem_of_cons in Htool as [-> | Htool];
         [discriminate Hname|by apply elem_of_nil in Htool]. }
  split.
  - exists (PStr "gpt-4o"). split; [reflexivity|]. intros Hnone.
    rewrite !call_tool_chat_run. unfold stdio_chat_request.
    by rewrite (dict_get_insert_default _ _ _ Hnone), !dict_get_insert_ne.
  - exists (PStr ""). split; [reflexivity|]. intros Hnone.
    rewrite !call_tool_chat_run. cbn [snd]. unfold called, stdio_chat_request.
    rewrite (dict_get_None _ "system_prompt" _ Hnone).
    unfold dict_get at 2. rewrite lookup_insert_eq. cbn.
    intros [= Hcalls]. apply app_inv_head in Hcalls. by simplify_eq.
Qed.

End Relay.

(** ** The validator of the concrete runs does what is assumed *)

Lemma first_missing_found keys (arguments : gmap string pyval) key :
  PStr key ∈ keys → arguments !! key = None →
  is_Some (first_missing keys arguments).
Proof.
  induction keys as [|k keys IH]; intros Hin Hnone.
  - by apply elem_of_nil in Hin.
  - apply elem_of_cons in Hin as [<- | Hin].
    + cbn. by rewrite Hnone.
    + destruct k; cbn; try by apply IH.
      destruct (arguments !! s); [by apply IH|done].
Qed.

Lemma str_in_elem v allowed : str_in v allowed = true → v ∈ allowed.
Proof.
  destruct v; cbn; try discriminate.
  intros Hex. apply existsb_exists in Hex as (a & Hin & Ha).
  apply py_eq_str_spec in Ha as ->. by apply list_elem_of_In.
Qed.

Lemma first_outside_found keys schema (arguments : gmap string pyval) key v allowed :
  key ∈ keys → arguments !! key = Some v → enum_of schema key = Some allowed →
  v ∉ allowed →
  is_Some (first_outside keys schema arguments).
Proof.
  intros Hin Hv Henum Hout.
  induction keys as [|k keys IH]; [by apply elem_of_nil in Hin|].
  cbn. apply elem_of_cons in Hin as [<- | Hin].
  - rewrite Hv, Henum.
    destruct (str_in v allowed) eqn:Hstr; [|done].
    by apply str_in_elem in Hstr.
  - destruct (arguments !! k); [|by apply IH].
    destruct (enum_of schema k); [|by apply IH].
    destruct (str_in _ _); [by apply IH|done].
Qed.

Lemma enum_key_is_property schema key allowed :
  enum_of schema key = Some allowed → key ∈ property_keys schema.
Proof.
  unfold enum_of, entry2, property_keys.
  destruct (entry schema "properties") as [props|]; [|done].
  destruct props as [ | | | | | |props]; try done.
  cbn. destruct (props !! key) as [p|] eqn:Hp; [|done]. intros _.
  apply list_elem_of_fmap. exists (key, p). split; [done|].
  by apply elem_of_map_to_list.
Qed.

Lemma checks_required_and_enum_rejects :
  rejects_required_and_enum checks_required_and_enum.
Proof.
  split.
  - intros tool arguments key _ Hkey Hnone. cbn.
    destruct (first_missing_found _ _ _ Hkey Hnone) as [k ->]. by eexists.
  - intros tool arguments key v allowed _ Hv Henum Hout. cbn.
    destruct (first_missing _ _); [by eexists|].
    destruct (first_outside_found (property_keys (inputSchema tool)) _ _ _ _ _
                (enum_key_is_property _ _ _ Henum) Hv Henum Hout) as [[v' allowed'] ->].
    by eexists.
Qed.

(** ** Concrete runs *)

(** C1 at a provider that raises "Connection error." on every call: the
    three surfaces' answers to a chat with no parameters. *)
Lemma chat_provider_fault_reported_witness :
  handle_chat Stub.failing ∅ Stub.w0 =
    (Ok (PDict {[ "success" := PBool false; "error" := PStr "Connection error." ]}),
     World [chat_request (PStr "gpt-4o") (PStr "You are a helpful AI assistant.")
                         (PStr "")] []) ∧
  do_POST Stub.repr Stub.loads Stub.failing (Stub.action_body "chat") Stub.w0 =
    (Ok tt,
     World [chat_request (PStr "gpt-4o") (PStr "You are a helpful AI assistant.")
                         (PStr "")]
           [Status 200;
            Header "Content-type" "application/json";
            Header "Access-Control-Allow-Origin" "*";
            EndHeaders;
            Body (json_dumps (PDict {[ "success" := PBool false;
                                       "error" := PStr "Connection error." ]}))]) ∧
  call_tool Stub.repr Stub.failing "chat_with_gpt" ∅ Stub.w0 =
    (Ok [MkTextContent "text" "Error calling ChatGPT: Connection error."],
     World [chat_request (PStr "gpt-4o") (PStr "You are a helpful AI assistant.")
                         PNone] []).
Proof.
  destruct (chat_provider_fault_reported Stub.repr Stub.loads Stub.failing
              Stub.connection_error) as (Hhttp & Hpost & Hstdio).
  split; [|split].
  - exact (Hhttp ∅ Stub.w0 eq_refl).
  - exact (Hpost (Stub.action_body "chat") {[ "action" := PStr "chat" ]} Stub.w0
             eq_refl eq_refl eq_refl).
  - exact (Hstdio ∅ Stub.w0 eq_refl).
Defined.

(** C8 at the tool name "bar". *)
Lemma unknown_tool_text_witness :
  call_tool Stub.repr Stub.answering "bar" ∅ Stub.w0 =
    (Ok [MkTextContent "text" "Unknown tool: bar"], Stub.w0).
Proof. apply unknown_tool_text; discriminate. Defined.

(** C2 as stated fails at the body [[]]: it is well-formed JSON, yet the
    router finds no [get] on the decoded list, and the [except] clause
    answers with status 500 and the fault's message, not with status 200
    and "Unknown action". *)
Lemma post_array_body_answered_500 :
  Stub.loads "[]" = Ok (PList []) ∧
  do_POST Stub.repr Stub.loads Stub.answering "[]" Stub.w0 =
    (Ok tt,
     World []
           [Status 500;
            Header "Content-type" "application/json";
            Header "Access-Control-Allow-Origin" "*";
            EndHeaders;
            Body (json_dumps
                    (PDict {[ "error" :=
                                PStr "'list' object has no attribute 'get'" ]}))]) ∧
  do_POST Stub.repr Stub.loads Stub.answering "[]" Stub.w0 ≠
    (Ok tt,
     World []
           [Status 200;
            Header "Content-type" "application/json";
            Header "Access-Control-Allow-Origin" "*";
            EndHeaders;
            Body (json_dumps (PDict {[ "error" := PStr "Unknown action" ]}))]).
Proof.
  assert (Hrun : do_POST Stub.repr Stub.loads Stub.answering "[]" Stub.w0 =
            (Ok tt,
             World []
               [Status 500;
                Header "Content-type" "application/json";
                Header "Access-Control-Allow-Origin" "*";
                EndHeaders;
                Body (json_dumps
                        (PDict {[ "error" :=
                                    PStr "'list' object has no attribute 'get'" ]}))]))
    by reflexivity.
  split; [reflexivity|]. split; [exact Hrun|].
  rewrite Hrun. intros Heq. discriminate Heq.
Qed.

(** C2, as amended, at the bodies [{"action": "foo"}], [{}] and
    [{"action": "list_tools"}]. *)
Lemma post_dispatch_witness :
  do_POST Stub.repr Stub.loads Stub.answering (Stub.action_body "foo") Stub.w0 =
    (Ok tt, answered 200 (PDict {[ "error" := PStr "Unknown action" ]}) Stub.w0) ∧
  do_POST Stub.repr Stub.loads Stub.answering "{}" Stub.w0 =
    (Ok tt, answered 200 (PDict {[ "error" := PStr "Unknown action" ]}) Stub.w0) ∧
  ∃ response,
    handle_list_tools Stub.w0 = (Ok response, Stub.w0) ∧
    do_POST Stub.repr Stub.loads Stub.answering (Stub.action_body "list_tools") Stub.w0 =
      (Ok tt, answered 200 response Stub.w0).
Proof.
  split; [|split].
  - destruct (post_dispatch Stub.repr Stub.loads Stub.answering
                (Stub.action_body "foo") {[ "action" := PStr "foo" ]} Stub.w0 eq_refl)
      as (_ & _ & _ & Hother).
    apply Hother; by vm_compute.
  - destruct (post_dispatch Stub.repr Stub.loads Stub.answering
                "{}" ∅ Stub.w0 eq_refl)
      as (_ & _ & _ & Hother).
    apply Hother; by vm_compute.
  - destruct (post_dispatch Stub.repr Stub.loads Stub.answering
                (Stub.action_body "list_tools") {[ "action" := PStr "list_tools" ]}
                Stub.w0 eq_refl)
      as (_ & _ & Hlist & _).
    apply Hlist. by vm_compute.
Defined.

(** C3 as stated fails at the chat request [{}] on the HTTP surface: with
    no [message] the relay does not fail, it calls the provider with the
    user message [''] and returns the success variant. *)
Lemma chat_without_message_succeeds :
  (∅ : gmap string pyval) !! "message" = None ∧
  handle_chat Stub.answering ∅ Stub.w0 =
    (Ok (PDict {[ "success" := PBool true;
                  "response" := PStr "Hello.";
                  "model" := PStr "gpt-4o";
                  "usage" := PDict {[ "prompt_tokens" := PInt 12;
                                      "completion_tokens" := PInt 3;
                                      "total_tokens" := PInt 15 ]} ]}),
     World [ {| model := PStr "gpt-4o";
                messages := [Message "system" (PStr "You are a helpful AI assistant.");
                             Message "user" (PStr "")];
                max_tokens := 1000 |} ]
           []).
Proof. split; reflexivity. Qed.

(** C3, as amended, at requests with no parameters. *)
Lemma chat_without_message_by_surface_witness :
  (∃ msg,
     registered_call_tool Stub.repr Stub.answering checks_required_and_enum
       "chat_with_gpt" ∅ Stub.w0 =
       (Ok (MkCallToolResult
              [MkTextContent "text" ("Input validation error: " +:+ msg)] true),
        Stub.w0)) ∧
  handle_chat Stub.answering ∅ Stub.w0 =
    (Ok (PDict {[ "success" := PBool true;
                  "response" := PStr "Hello.";
                  "model" := PStr "gpt-4o";
                  "usage" := PDict {[ "prompt_tokens" := PInt 12;
                                      "completion_tokens" := PInt 3;
                                      "total_tokens" := PInt 15 ]} ]}),
     World [ {| model := PStr "gpt-4o";
                messages := [Message "system" (PStr "You are a helpful AI assistant.");
                             Message "user" (PStr "")];
                max_tokens := 1000 |} ]
           []).
Proof.
  destruct (chat_without_message_by_surface Stub.repr Stub.answering
              checks_required_and_enum ∅ ∅ Stub.w0 checks_required_and_enum_rejects)
    as (Hstdio & Hhttp).
  split.
  - exact (Hstdio eq_refl).
  - destruct (Hhttp eq_refl) as (Hcall & Hok).
    specialize (Hok Stub.completion "Hello." [] eq_refl eq_refl).
    destruct (handle_chat _ _ _) as [r w']. cbn [fst snd] in *.
    by rewrite Hok, Hcall.
Defined.

(** C4 as stated fails at the body [{"action": "foo"}]: the unknown-action
    answer is the JSON object with the single entry [error]; it has no
    [success]. *)
Lemma unknown_action_has_no_success :
  do_POST Stub.repr Stub.loads Stub.answering (Stub.action_body "foo") Stub.w0 =
    (Ok tt,
     World []
           [Status 200;
            Header "Content-type" "application/json";
            Header "Access-Control-Allow-Origin" "*";
            EndHeaders;
            Body (json_dumps (PDict {[ "error" := PStr "Unknown action" ]}))]) ∧
  ({[ "error" := PStr "Unknown action" ]} : gmap string pyval) !! "success" = None.
Proof. split; reflexivity. Qed.

(** C5 as stated fails at the text "abc" with the kind "sentiment": the
    message sent is the instruction of the table, two line feeds, and
    "abc"; it is not the instruction with "abc" appended to it. *)
Lemma sentiment_prompt_has_blank_line :
  spec_instruction "sentiment" =
    Some "Analyze the sentiment of this text and provide a detailed assessment:" ∧
  calls (snd (handle_analyze Stub.repr Stub.answering
                {[ "text" := PStr "abc"; "analysis_type" := PStr "sentiment" ]}
                Stub.w0)) =
    [ {| model := PStr "gpt-4o";
         messages :=
           [Message "user"
              (PStr ("Analyze the sentiment of this text and provide a detailed assessment:"
                     +:+ LF +:+ LF +:+ "abc"))];
         max_tokens := 1000 |} ] ∧
  calls (snd (handle_analyze Stub.repr Stub.answering
                {[ "text" := PStr "abc"; "analysis_type" := PStr "sentiment" ]}
                Stub.w0)) ≠
    [ {| model := PStr "gpt-4o";
         messages :=
           [Message "user"
              (PStr ("Analyze the sentiment of this text and provide a detailed assessment:"
                     +:+ "abc"))];
         max_tokens := 1000 |} ].
Proof.
  split; [reflexivity|]. split; [reflexivity|].
  intros Heq. vm_compute in Heq. discriminate Heq.
Qed.

(** C5, as amended, at the text "abc" with the kind "key_points". *)
Lemma analysis_prompt_matches_table_witness :
  let data : gmap string pyval :=
    {[ "text" := PStr "abc"; "analysis_type" := PStr "key_points" ]} in
  let req :=
    {| model := PStr "gpt-4o";
       messages :=
         [Message "user"
            (PStr ("Extract the key points from this text as a bulleted list:"
                   +:+ LF +:+ LF +:+ "abc"))];
       max_tokens := 1000 |} in
  snd (handle_analyze Stub.repr Stub.answering data Stub.w0) = World [req] [] ∧
  snd (call_tool Stub.repr Stub.answering "analyze_text" data Stub.w0) = World [req] [].
Proof.
  exact (analysis_prompt_matches_table Stub.repr Stub.answering
           "key_points" "Extract the key points from this text as a bulleted list:"
           "abc" {[ "text" := PStr "abc"; "analysis_type" := PStr "key_points" ]}
           Stub.w0 eq_refl eq_refl eq_refl).
Defined.

(** C6 as stated fails at the value [[]]: it is outside the four kinds, a
    list cannot be hashed, and the HTTP surface does not fall back to the
    summary template but returns the failure variant without calling the
    provider.  And at the value "mood" the stdio surface does not fail
    with a lookup fault: the registered handler rejects it against the
    [enum] of the schema. *)
Lemma list_valued_type_fails_on_http_too :
  handle_analyze Stub.repr Stub.answering
    {[ "text" := PStr "abc"; "analysis_type" := PList [] ]} Stub.w0 =
    (Ok (PDict {[ "success" := PBool false;
                  "error" := PStr "unhashable type: 'list'" ]}),
     Stub.w0) ∧
  registered_call_tool Stub.repr Stub.answering checks_required_and_enum
    "analyze_text" {[ "text" := PStr "abc"; "analysis_type" := PStr "mood" ]} Stub.w0 =
    (Ok (MkCallToolResult
           [MkTextContent "text"
              "Input validation error: 'mood' is not one of ['sentiment', 'themes', 'summary', 'key_points']"]
           true),
     Stub.w0).
Proof. split; reflexivity. Qed.

(** C6, as amended, at the value "mood" with the text "abc". *)
Lemma unknown_analysis_type_by_surface_witness :
  let data : gmap string pyval :=
    {[ "text" := PStr "abc"; "analysis_type" := PStr "mood" ]} in
  (∃ msg,
     registered_call_tool Stub.repr Stub.answering checks_required_and_enum
       "analyze_text" data Stub.w0 =
       (Ok (MkCallToolResult
              [MkTextContent "text" ("Input validation error: " +:+ msg)] true),
        Stub.w0)) ∧
  call_tool Stub.repr Stub.answering "analyze_text" data Stub.w0 =
    (Ok [MkTextContent "text" "Error analyzing text: 'mood'"], Stub.w0) ∧
  handle_analyze Stub.repr Stub.answering data Stub.w0 =
    (Ok (PDict {[ "success" := PBool true;
                  "analysis" := PStr "Hello.";
                  "type" := PStr "mood";
                  "usage" := PDict {[ "prompt_tokens" := PInt 12;
                                      "completion_tokens" := PInt 3;
                                      "total_tokens" := PInt 15 ]} ]}),
     World [ {| model := PStr "gpt-4o";
                messages :=
                  [Message "user"
                     (PStr ("Provide a concise summary of this text:"
                            +:+ LF +:+ LF +:+ "abc"))];
                max_tokens := 1000 |} ] []).
Proof.
  intros data.
  assert (Hmood : ∀ s, PStr "mood" = PStr s → ¬ defined_type s).
  { intros s [= <-]. unfold defined_type. intros [H | [H | [H | H]]]; discriminate H. }
  destruct (unknown_analysis_type_by_surface Stub.repr Stub.answering
              checks_required_and_enum (PStr "mood") data Stub.w0
              checks_required_and_enum_rejects eq_refl Hmood)
    as (Hhandler & Hstdio & Hhttp & _).
  split; [exact Hhandler|]. split.
  - destruct (Hstdio eq_refl) as (_ & Hrun). exact Hrun.
  - destruct (Hhttp eq_refl) as (Hcall & Hok).
    specialize (Hok Stub.completion "Hello." [] eq_refl eq_refl).
    destruct (handle_analyze _ _ _ _) as [r w']. cbn [fst snd] in *.
    by rewrite Hok, Hcall.
Defined.

(** C7 as stated fails at the kind "mood" with the text "abc".  On the
    HTTP surface the success response is tagged "mood" while the message
    that was sent is the one of the summary kind, so the tag is not the
    kind used; on the stdio surface the provider is not invoked at all,
    neither by [call_tool] nor through the registered handler. *)
Lemma mood_is_tagged_but_summary_is_used :
  let data : gmap string pyval :=
    {[ "text" := PStr "abc"; "analysis_type" := PStr "mood" ]} in
  handle_analyze Stub.repr Stub.answering data Stub.w0 =
    (Ok (PDict {[ "success" := PBool true;
                  "analysis" := PStr "Hello.";
                  "type" := PStr "mood";
                  "usage" := PDict {[ "prompt_tokens" := PInt 12;
                                      "completion_tokens" := PInt 3;
                                      "total_tokens" := PInt 15 ]} ]}),
     World [ {| model := PStr "gpt-4o";
                messages :=
                  [Message "user"
                     (PStr ("Provide a concise summary of this text:"
                            +:+ LF +:+ LF +:+ "abc"))];
                max_tokens := 1000 |} ] []) ∧
  spec_instruction "summary" = Some "Provide a concise summary of this text:" ∧
  spec_instruction "mood" = None ∧
  calls (snd (call_tool Stub.repr Stub.answering "analyze_text" data Stub.w0)) = [] ∧
  calls (snd (registered_call_tool Stub.repr Stub.answering checks_required_and_enum
                "analyze_text" data Stub.w0)) = [].
Proof. repeat split; reflexivity. Qed.

(** C7, as amended, at the kind "themes" with the text "abc" and a
    request for the model "gpt-3.5-turbo". *)
Lemma analysis_call_and_tag_witness :
  let data : gmap string pyval :=
    {[ "text" := PStr "abc"; "analysis_type" := PStr "themes";
       "model" := PStr "gpt-3.5-turbo" ]} in
  handle_analyze Stub.repr Stub.answering data Stub.w0 =
    (Ok (PDict {[ "success" := PBool true;
                  "analysis" := PStr "Hello.";
                  "type" := PStr "themes";
                  "usage" := PDict {[ "prompt_tokens" := PInt 12;
                                      "completion_tokens" := PInt 3;
                                      "total_tokens" := PInt 15 ]} ]}),
     World [ {| model := PStr "gpt-4o";
                messages :=
                  [Message "user"
                     (PStr ("Identify and explain the main themes in this text:"
                            +:+ LF +:+ LF +:+ "abc"))];
                max_tokens := 1000 |} ] []) ∧
  snd (call_tool Stub.repr Stub.answering "analyze_text" data Stub.w0) =
    World [ {| model := PStr "gpt-4o";
               messages :=
                 [Message "user"
                    (PStr ("Identify and explain the main themes in this text:"
                           +:+ LF +:+ LF +:+ "abc"))];
               max_tokens := 1000 |} ] [].
Proof.
  intros data.
  destruct (analysis_call_and_tag Stub.repr Stub.answering data Stub.w0)
    as (_ & _ & _ & _ & _ & Hhttp & Hstdio & _).
  split.
  - destruct (Hhttp "themes" "Identify and explain the main themes in this text:"
                eq_refl eq_refl) as (Hcall & Hok).
    specialize (Hok Stub.completion "Hello." [] eq_refl eq_refl).
    destruct (handle_analyze _ _ _ _) as [r w']. cbn [fst snd] in *.
    by rewrite Hok, Hcall.
  - exact (Hstdio "themes" "Identify and explain the main themes in this text:"
             eq_refl eq_refl).
Defined.

(** C9 as stated fails: the document a GET is answered with lists three
    actions under [endpoints.actions], "list_tools" after "chat" and
    "analyze", not two. *)
Lemma get_lists_three_actions :
  ¬ ∃ document endpoints : gmap string pyval,
      do_GET Stub.w0 = (Ok tt, answered 200 (PDict document) Stub.w0) ∧
      document !! "endpoints" = Some (PDict endpoints) ∧
      endpoints !! "actions" = Some (PList [PStr "chat"; PStr "analyze"]).
Proof.
  intros (document & endpoints & Hrun & Hendpoints & Hactions).
  assert (Hdoc : status_document = PDict document).
  { unfold do_GET in Hrun. fold (send_json 200 status_document) in Hrun.
    rewrite send_json_answered in Hrun. unfold answered in Hrun.
    by simplify_list_eq. }
  unfold status_document in Hdoc. simplify_eq.
  by simplify_map_eq.
Qed.

(** C10 at the kind "mood" with the text "abc". *)
Lemma unknown_type_tag_and_template_witness :
  let data : gmap string pyval :=
    {[ "text" := PStr "abc"; "analysis_type" := PStr "mood" ]} in
  let body : gmap string pyval :=
    {[ "success" := PBool true;
       "analysis" := PStr "Hello.";
       "type" := PStr "mood";
       "usage" := PDict {[ "prompt_tokens" := PInt 12;
                           "completion_tokens" := PInt 3;
                           "total_tokens" := PInt 15 ]} ]} in
  fst (handle_analyze Stub.repr Stub.answering data Stub.w0) = Ok (PDict body) ∧
  body !! "type" = Some (PStr "mood") ∧
  calls (snd (handle_analyze Stub.repr Stub.answering data Stub.w0)) =
    [ {| model := PStr "gpt-4o";
         messages :=
           [Message "user"
              (PStr ("Provide a concise summary of this text:"
                     +:+ LF +:+ LF +:+ "abc"))];
         max_tokens := 1000 |} ].
Proof.
  intros data body.
  assert (Hmood : ∀ s, PStr "mood" = PStr s → ¬ defined_type s).
  { intros s [= <-]. unfold defined_type. intros [H | [H | [H | H]]]; discriminate H. }
  destruct (unknown_type_tag_and_template Stub.repr Stub.answering
              data (PStr "mood") body Stub.w0
              (snd (handle_analyze Stub.repr Stub.answering data Stub.w0))
              eq_refl Hmood eq_refl eq_refl)
    as (Htag & _ & Hworld).
  split; [reflexivity|]. split; [exact Htag|].
  by rewrite Hworld.
Defined.

(** ** Concrete runs of the further properties *)

(** X2 at the body [{"action": "chat"}]: the one provider call is made, and
    the body is a JSON object with the action "chat". *)
Lemma http_calls_provider_at_most_once_witness :
  ∃ data,
    Stub.loads (Stub.action_body "chat") = Ok (PDict data) ∧
    (dict_get data "action" PNone = PStr "chat" ∨
     dict_get data "action" PNone = PStr "analyze").
Proof.
  destruct (http_calls_provider_at_most_once Stub.repr Stub.loads Stub.answering
              (Stub.action_body "chat") Stub.w0)
    as ((new & Hcalls & _ & Hwhy) & _).
  apply Hwhy. intros ->. discriminate Hcalls.
Defined.


(** X5 at a provider that answers without choices. *)
Lemma empty_choices_reported_witness :
  handle_chat Stub.no_choices {[ "message" := PStr "Hi" ]} Stub.w0 =
    (Ok (PDict {[ "success" := PBool false;
                  "error" := PStr "list index out of range" ]}),
     World [chat_request (PStr "gpt-4o") (PStr "You are a helpful AI assistant.")
                         (PStr "Hi")] []) ∧
  fst (call_tool Stub.repr Stub.no_choices "analyze_text"
         {[ "text" := PStr "abc"; "analysis_type" := PStr "themes" ]} Stub.w0) =
    Ok [MkTextContent "text" "Error analyzing text: list index out of range"].
Proof.
  destruct (empty_choices_reported Stub.repr Stub.no_choices
              {| choices := []; usage := MkUsage 12 0 12 |} eq_refl)
    as (Hchat & _ & _ & Hanalyze).
  split.
  - exact (Hchat {[ "message" := PStr "Hi" ]} Stub.w0 eq_refl).
  - exact (f_equal fst
             (Hanalyze {[ "text" := PStr "abc"; "analysis_type" := PStr "themes" ]}
                "themes" "Identify and explain the main themes in this text:"
                Stub.w0 eq_refl eq_refl eq_refl)).
Defined.

(** X6 at a provider that raises "Connection error.". *)
Lemma analysis_provider_fault_reported_witness :
  let data : gmap string pyval :=
    {[ "text" := PStr "abc"; "analysis_type" := PStr "themes" ]} in
  fst (handle_analyze Stub.repr Stub.failing data Stub.w0) =
    Ok (PDict {[ "success" := PBool false; "error" := PStr "Connection error." ]}) ∧
  fst (call_tool Stub.repr Stub.failing "analyze_text" data Stub.w0) =
    Ok [MkTextContent "text" "Error analyzing text: Connection error."].
Proof.
  intros data.
  destruct (analysis_provider_fault_reported Stub.repr Stub.failing
              Stub.connection_error "themes"
              "Identify and explain the main themes in this text:" eq_refl)
    as (Hhttp & Hstdio).
  split.
  - exact (f_equal fst (Hhttp data Stub.w0 eq_refl eq_refl)).
  - exact (f_equal fst (Hstdio data Stub.w0 eq_refl eq_refl)).
Defined.


(** X8 at the kind "themes" with the text "abc". *)
Lemma analyze_surfaces_agree_witness :
  let data : gmap string pyval :=
    {[ "text" := PStr "abc"; "analysis_type" := PStr "themes" ]} in
  ∃ response shown_text w',
    handle_analyze Stub.repr Stub.answering data Stub.w0 = (Ok response, w') ∧
    call_tool Stub.repr Stub.answering "analyze_text" data Stub.w0 =
      (Ok [MkTextContent "text" shown_text], w') ∧
    shown "Error analyzing text: " "analysis" response = Some shown_text.
Proof.
  refine (analyze_surfaces_agree Stub.repr Stub.answering
            {[ "text" := PStr "abc"; "analysis_type" := PStr "themes" ]}
            "themes" (PStr "abc") Stub.w0 _ eq_refl eq_refl).
  right. left. reflexivity.
Defined.


(** X10 at requests without parameters. *)
Lemma absent_parameter_is_default_witness :
  handle_chat Stub.answering {[ "message" := PStr "" ]} Stub.w0 =
    handle_chat Stub.answering ∅ Stub.w0 ∧
  handle_analyze Stub.repr Stub.answering {[ "analysis_type" := PStr "summary" ]} Stub.w0 =
    handle_analyze Stub.repr Stub.answering ∅ Stub.w0.
Proof.
  destruct (absent_parameter_is_default Stub.repr Stub.answering ∅ Stub.w0)
    as (Hmessage & _ & _ & _ & Htype & _).
  split; [exact (Hmessage eq_refl)|exact (Htype eq_refl)].
Defined.

(** X11 at an entry [temperature]. *)
Lemma unread_entries_are_ignored_witness :
  let data : gmap string pyval := {[ "message" := PStr "Hi" ]} in
  handle_chat Stub.answering (<["temperature" := PInt 2]> data) Stub.w0 =
    handle_chat Stub.answering data Stub.w0 ∧
  call_tool Stub.repr Stub.answering "analyze_text"
    (<["temperature" := PInt 2]> data) Stub.w0 =
    call_tool Stub.repr Stub.answering "analyze_text" data Stub.w0.
Proof.
  intros data.
  destruct (unread_entries_are_ignored Stub.repr Stub.answering
              "temperature" (PInt 2) data Stub.w0) as (Hchat & Hanalyze).
  split.
  - apply Hchat; discriminate.
  - apply Hanalyze; discriminate.
Defined.

(** X12 at the listed name "analyze_text" and at the name "bar". *)
Lemma listed_tools_are_handled_witness :
  call_tool Stub.repr Stub.answering "analyze_text" ∅ Stub.w0 ≠
    (Ok [MkTextContent "text" "Unknown tool: analyze_text"], Stub.w0) ∧
  "bar" ∉ name <$> list_tools.
Proof.
  split.
  - apply (listed_tools_are_handled Stub.repr Stub.answering "analyze_text" ∅ Stub.w0).
    cbn. apply elem_of_cons. right. apply elem_of_cons. by left.
  - intros Hbar.
    apply (listed_tools_are_handled Stub.repr Stub.answering "bar" ∅ Stub.w0) in Hbar.
    by apply Hbar.
Defined.

(** X13 at the analysis tool, with the text "abc" and the kind "themes". *)
Lemma conforming_call_reaches_provider_witness :
  ∃ tool req,
    list_tools !! 1%nat = Some tool ∧
    snd (call_tool Stub.repr Stub.answering (name tool)
           {[ "text" := PStr "abc"; "analysis_type" := PStr "themes" ]} Stub.w0) =
      called req Stub.w0 ∧
    max_tokens req = 1000.
Proof.
  destruct (list_tools !! 1%nat) as [tool|] eqn:Htool; [|discriminate Htool].
  destruct (conforming_call_reaches_provider Stub.repr Stub.answering tool
              {[ "text" := PStr "abc"; "analysis_type" := PStr "themes" ]} Stub.w0)
    as (req & Hcall & Hcap).
  - apply list_elem_of_lookup. by exists 1%nat.
  - injection Htool as <-. split.
    + intros key Hkey. cbn in Hkey.
      change (PStr key ∈ [PStr "text"; PStr "analysis_type"]) in Hkey.
      rewrite !elem_of_cons, elem_of_nil in Hkey.
      destruct Hkey as [[= ->] | [[= ->] | []]]; by eexists.
    + intros key v allowed Hv Henum.
      destruct (decide (key = "analysis_type")) as [-> | Htype].
      * change (Some (PStr "themes") = Some v) in Hv.
        change (Some [PStr "sentiment"; PStr "themes"; PStr "summary"; PStr "key_points"]
                = Some allowed) in Henum.
        injection Hv as <-. injection Henum as <-.
        rewrite !elem_of_cons. tauto.
      * destruct (decide (key = "text")) as [-> | Htext]; [discriminate Henum|].
        rewrite !lookup_insert_ne, lookup_singleton_ne in Hv by done.
        discriminate Hv.
  - exists tool, req. by split.
Defined.

(** X14 at the bodies [{"action": "analyze"}] and [{"action": "foo"}]. *)
Lemma listed_actions_are_routed_witness :
  do_POST Stub.repr Stub.loads Stub.answering (Stub.action_body "analyze") Stub.w0 ≠
    (Ok tt, answered 200 (PDict {[ "error" := PStr "Unknown action" ]}) Stub.w0) ∧
  PStr "foo" ∉ listed_actions.
Proof.
  split.
  - apply (listed_actions_are_routed Stub.repr Stub.loads Stub.answering
             (Stub.action_body "analyze") {[ "action" := PStr "analyze" ]} Stub.w0 eq_refl).
    change (PStr "analyze" ∈ [PStr "chat"; PStr "analyze"; PStr "list_tools"]).
    apply elem_of_cons. right. apply elem_of_cons. by left.
  - intros Hfoo.
    apply (listed_actions_are_routed Stub.repr Stub.loads Stub.answering
             (Stub.action_body "foo") {[ "action" := PStr "foo" ]} Stub.w0 eq_refl)
      in Hfoo.
    by apply Hfoo.
Defined.

(** X15 at a request whose [Content-Length] is "abc". *)
Lemma post_header_fault_escapes_witness :
  do_POST_from_request Stub.repr Stub.loads Stub.answering Stub.int_str
    (Some "abc") "{}" Stub.w0 =
    (Fault (Exn "ValueError" "invalid literal for int() with base 10: 'abc'"),
     Stub.w0).
Proof.
  destruct (post_header_fault_escapes Stub.repr Stub.loads Stub.answering
              Stub.int_str "{}" Stub.w0) as (_ & Hbad).
  exact (Hbad "abc" _ eq_refl).
Defined.


(** X17 at a chat with the message alone. *)
Lemma declared_defaults_and_used_defaults_witness :
  let arguments : gmap string pyval := {[ "message" := PStr "Hi" ]} in
  call_tool Stub.repr Stub.answering "chat_with_gpt"
    (<["model" := PStr "gpt-4o"]> arguments) Stub.w0 =
    call_tool Stub.repr Stub.answering "chat_with_gpt" arguments Stub.w0 ∧
  snd (call_tool Stub.repr Stub.answering "chat_with_gpt"
         (<["system_prompt" := PStr ""]> arguments) Stub.w0) ≠
    snd (call_tool Stub.repr Stub.answering "chat_with_gpt" arguments Stub.w0).
Proof.
  intros arguments.
  destruct (list_tools !! 0%nat) as [tool|] eqn:Htool; [|discriminate Htool].
  destruct (declared_defaults_and_used_defaults Stub.repr Stub.answering tool
              arguments Stub.w0)
    as ((declared & Hdeclared & Hmodel) & (declared' & Hdeclared' & Hsystem)).
  - apply list_elem_of_lookup. by exists 0%nat.
  - by injection Htool as <-.
  - injection Htool as <-.
    injection Hdeclared as <-. injection Hdeclared' as <-.
    split; [exact (Hmodel eq_refl)|exact (Hsystem eq_refl)].
Defined.
